(** * Yahoo-finance scanner: windowed fetch cursor

    Shallow embedding of [src/scanner/yahoo_finance.cpp]: the interval
    calendar ([IntervalInEpoch], [ValidInterval]), the bind data and its
    constructor ([YahooFunctionData]), the window generator ([GeneratePlan])
    and the table function ([YahooScanner::Bind], [YahooScanner::Scan]).

    C++ integers are mathematical integers with the wrap-around of their
    width written out; code that throws or has no defined behaviour returns
    in the [result] monad. *)

From Stdlib Require Import ZArith String List Lia Ascii DecimalString Bool.
From Stdlib Require Import DecimalPos DecimalZ.
Import ListNotations.
Local Open Scope string_scope.
Local Open Scope Z_scope.

(** ** Fixed-width integers *)

Module Int.

(** Two's complement reduction of [z] to a signed [w]-bit integer. *)
Definition wrap (w z : Z) : Z := (z + 2 ^ (w - 1)) mod 2 ^ w - 2 ^ (w - 1).

Definition INT64_MIN : Z := - 2 ^ 63.
Definition INT64_MAX : Z := 2 ^ 63 - 1.
Definition INT_MIN : Z := - 2 ^ 31.
Definition INT_MAX : Z := 2 ^ 31 - 1.

Definition wrap64 : Z -> Z := wrap 64.
Definition wrap32 : Z -> Z := wrap 32.

Definition add64 (a b : Z) : Z := wrap64 (a + b).
Definition sub64 (a b : Z) : Z := wrap64 (a - b).
Definition mul64 (a b : Z) : Z := wrap64 (a * b).
Definition add32 (a b : Z) : Z := wrap32 (a + b).

Definition in_int64 (z : Z) : Prop := INT64_MIN <= z <= INT64_MAX.
Definition in_int (z : Z) : Prop := INT_MIN <= z <= INT_MAX.

End Int.
Import Int.

(** ** Exceptions and undefined behaviour *)

Inductive Exception : Type :=
| InvalidInputException (msg : string)
| OtherException (msg : string).

(** [Throw] is a C++ exception leaving the function; [Undefined] stands for
    an operation the language gives no meaning to (integer division by
    zero, dereferencing a null pointer). *)
Inductive result (A : Type) : Type :=
| Ok (a : A)
| Throw (e : Exception)
| Undefined.
Arguments Ok {A} a.
Arguments Throw {A} e.
Arguments Undefined {A}.

Definition bind {A B : Type} (r : result A) (k : A -> result B) : result B :=
  match r with
  | Ok a => k a
  | Throw e => Throw e
  | Undefined => Undefined
  end.

Notation "x <- r ;; k" := (bind r (fun x => k))
  (at level 61, r at next level, right associativity).
Notation "r ;;; k" := (bind r (fun _ => k))
  (at level 61, right associativity).

(** Integer division of the language: truncation towards zero, no meaning
    for a zero divisor. *)
Definition div64 (a b : Z) : result Z :=
  if b =? 0 then Undefined else Ok (wrap64 (Z.quot a b)).

(** [std::to_string] on a signed integer: decimal digits, a leading minus
    sign for negative numbers. *)
Definition to_string (z : Z) : string := NilZero.string_of_int (Z.to_int z).

(** ** Host-engine types the scanner mentions *)

Inductive LogicalType : Type :=
| BOOLEAN | INTEGER | BIGINT | HUGEINT | DOUBLE | DATE | TIMESTAMP | VARCHAR.

Definition LogicalType_eqb (a b : LogicalType) : bool :=
  match a, b with
  | BOOLEAN, BOOLEAN | INTEGER, INTEGER | BIGINT, BIGINT | HUGEINT, HUGEINT
  | DOUBLE, DOUBLE | DATE, DATE | TIMESTAMP, TIMESTAMP | VARCHAR, VARCHAR => true
  | _, _ => false
  end.

(** [date_t]: days since the epoch. *)
Definition date_t : Type := Z.

Inductive Value : Type :=
| BooleanValue (b : bool)
| IntegerValue (z : Z)
| DateValue (d : date_t)
| VarcharValue (s : string).

Definition Value_type (v : Value) : LogicalType :=
  match v with
  | BooleanValue _ => BOOLEAN
  | IntegerValue _ => INTEGER
  | DateValue _ => DATE
  | VarcharValue _ => VARCHAR
  end.

Record ColumnDefinition : Type := {
  Name : string;
  Type_ : LogicalType
}.

(** A CSV relation over a file (here a URL), with the columns to read and
    the reader's named parameters. *)
Record ReadCSVRelation : Type := {
  csv_file : string;
  Columns : list ColumnDefinition;
  named_parameters : list (string * Value)
}.

(** ** Interval calendar *)

(** Modelled from the spec: [duckdb::Interval::SECS_PER_DAY] is declared in
    the host engine's headers, not under src/; the spec gives one day as
    86400 seconds. *)
Definition SECS_PER_DAY : Z := 86400.

Definition IntervalInEpoch (interval : string) : Z :=
  if String.eqb interval "1d" then SECS_PER_DAY
  else if String.eqb interval "5d" then mul64 5 SECS_PER_DAY
  else if String.eqb interval "1wk" then mul64 7 SECS_PER_DAY
  else if String.eqb interval "1mo" then mul64 30 SECS_PER_DAY
  else if String.eqb interval "3mo" then mul64 90 SECS_PER_DAY
  else 0.

Definition valid_interval : list string := ["1d"; "5d"; "1wk"; "1mo"; "3mo"].

Definition nl : string := String "010"%char EmptyString.

Definition accepted_intervals : string :=
  ("1d: 1 day interval" ++ nl ++ "5d: 5 day interval" ++ nl ++
   "1wk: 1 week interval" ++ nl ++ "1mo: 1 month interval" ++ nl ++
   "3mo: 3 month interval" ++ nl)%string.

Definition invalid_interval_message : string :=
  ("Interval is not valid, you should use one of the following valid intervals: "
   ++ nl ++ accepted_intervals)%string.

(** [valid_interval.find(interval) == valid_interval.end()] *)
Definition find_interval (interval : string) : bool :=
  existsb (String.eqb interval) valid_interval.

Definition ValidInterval (interval : string) : result unit :=
  if negb (find_interval interval)
  then Throw (InvalidInputException invalid_interval_message)
  else Ok tt.

(** ** Bind data *)

Record YahooFunctionData : Type := {
  plan : option ReadCSVRelation;
  symbol : string;
  from_epoch : Z;
  cur_to_epoch : Z;
  to_epoch : Z;
  interval : string;
  increment_epoch : Z
}.

(** [int expected_tuples = (to_epoch - from_epoch) / interval_epoch + 1]:
    a 64-bit quotient and sum, stored in a 32-bit [int]. *)
Definition expected_tuples_of (from_epoch_p to_epoch_p interval_epoch : Z)
  : result Z :=
  q <- div64 (sub64 to_epoch_p from_epoch_p) interval_epoch ;;
  Ok (wrap32 (add64 q 1)).

Definition increment_of (from_epoch_p to_epoch_p expected_tuples : Z)
  : result Z :=
  if 60 <? expected_tuples
  then div64 (sub64 to_epoch_p from_epoch_p)
             (add32 (Z.quot expected_tuples 60) 1)
  else Ok (sub64 to_epoch_p from_epoch_p).

(** The constructor of [YahooFunctionData] (the connection it also stores
    takes no part in the windowing and is left out). *)
Definition YahooFunctionData_new
  (symbol_p : string) (from_epoch_p to_epoch_p : Z) (interval_p : string)
  : result YahooFunctionData :=
  let interval_epoch := IntervalInEpoch interval_p in
  expected_tuples <- expected_tuples_of from_epoch_p to_epoch_p interval_epoch ;;
  increment <- increment_of from_epoch_p to_epoch_p expected_tuples ;;
  Ok {| plan := None;
        symbol := symbol_p;
        from_epoch := from_epoch_p;
        cur_to_epoch :=
          if add64 from_epoch_p increment <? to_epoch_p
          then add64 from_epoch_p increment
          else to_epoch_p;
        to_epoch := to_epoch_p;
        interval := interval_p;
        increment_epoch := increment |}.

(** ** Window generator *)

Definition column_def : list ColumnDefinition :=
  [ {| Name := "Date"; Type_ := DATE |};
    {| Name := "Open"; Type_ := DOUBLE |};
    {| Name := "High"; Type_ := DOUBLE |};
    {| Name := "Low"; Type_ := DOUBLE |};
    {| Name := "Close"; Type_ := DOUBLE |};
    {| Name := "Adj Close"; Type_ := DOUBLE |};
    {| Name := "Volume"; Type_ := HUGEINT |} ].

Definition request_url (symbol_ from to interval_ : string) : string :=
  ("https://query1.finance.yahoo.com/v7/finance/download/" ++
   symbol_ ++ "?period1=" ++ from ++ "&period2=" ++ to ++
   "&interval=" ++ interval_ ++ "&events=history")%string.

Definition csv_rel (url : string) : ReadCSVRelation :=
  {| csv_file := url;
     Columns := column_def;
     named_parameters :=
       [("HEADER", BooleanValue true); ("NULLSTR", VarcharValue "null")] |}.

(** The cursor after [from_epoch += increment_epoch] and
    [cur_to_epoch += increment_epoch]. *)
Definition advance (bind_data : YahooFunctionData) : YahooFunctionData :=
  {| plan := plan bind_data;
     symbol := symbol bind_data;
     from_epoch := add64 (from_epoch bind_data) (increment_epoch bind_data);
     cur_to_epoch := add64 (cur_to_epoch bind_data) (increment_epoch bind_data);
     to_epoch := to_epoch bind_data;
     interval := interval bind_data;
     increment_epoch := increment_epoch bind_data |}.

(** [GeneratePlan] returns the relation ([None] is the null pointer) and the
    bind data it has mutated through its reference parameter. *)
Definition GeneratePlan (bind_data : YahooFunctionData)
  : option ReadCSVRelation * YahooFunctionData :=
  if to_epoch bind_data <? cur_to_epoch bind_data then
    (None, bind_data)
  else
    let from := to_string (from_epoch bind_data) in
    let to := to_string (cur_to_epoch bind_data) in
    let bind_data' := advance bind_data in
    let url := request_url (symbol bind_data') from to (interval bind_data') in
    (Some (csv_rel url), bind_data').

Definition set_plan (p : option ReadCSVRelation) (data : YahooFunctionData)
  : YahooFunctionData :=
  {| plan := p;
     symbol := symbol data;
     from_epoch := from_epoch data;
     cur_to_epoch := cur_to_epoch data;
     to_epoch := to_epoch data;
     interval := interval data;
     increment_epoch := increment_epoch data |}.

(** ** The table function *)

Section Scanner.

(** The host engine's collaborators: the conversion of a VARCHAR argument
    to a date, the epoch of a date, and the execution of a relation
    followed by the fetch of its first chunk ([None] is the null chunk of
    a result without rows). *)
Variable DataChunk : Type.
Variable CastToDate : string -> result date_t.
Variable Date_Epoch : date_t -> Z.
Variable Execute_Fetch : ReadCSVRelation -> result (option DataChunk).

Record TableFunctionBindInput : Type := {
  input_symbol : string;
  input_from : Value;
  input_to : Value;
  input_interval : string
}.

(** [Value::GetValue<date_t>] *)
Definition GetValue_date (v : Value) : result date_t :=
  match v with
  | DateValue d => Ok d
  | VarcharValue s => CastToDate s
  | BooleanValue _ | IntegerValue _ =>
      Throw (OtherException "unimplemented cast to DATE")
  end.

Definition check_period_type (v : Value) : result unit :=
  if negb (LogicalType_eqb (Value_type v) VARCHAR) &&
     negb (LogicalType_eqb (Value_type v) DATE)
  then Throw (InvalidInputException
                "Start Period must be a Date or a Date-VARCHAR ")
  else Ok tt.

Record BindOutput : Type := {
  bind_data : YahooFunctionData;
  return_types : list LogicalType;
  names : list string
}.

Definition Bind (input : TableFunctionBindInput)
  (return_types_p : list LogicalType) (names_p : list string)
  : result BindOutput :=
  check_period_type (input_from input) ;;;
  check_period_type (input_to input) ;;;
  let symbol_ := input_symbol input in
  from_date <- GetValue_date (input_from input) ;;
  to_date <- GetValue_date (input_to input) ;;
  let from := Date_Epoch from_date in
  let to := Date_Epoch to_date in
  let interval_ := input_interval input in
  ValidInterval interval_ ;;;
  if to_date <=? from_date then
    Throw (InvalidInputException
             "The End period must be higher than the start period")
  else
    result_ <- YahooFunctionData_new symbol_ from to interval_ ;;
    let '(p, result') := GeneratePlan result_ in
    match p with
    | None => Undefined
    | Some rel =>
        Ok {| bind_data := set_plan p result';
              return_types := return_types_p ++ map Type_ (Columns rel);
              names := names_p ++ map Name (Columns rel) |}
    end.

(** [Scan] returns the bind data it has mutated and the chunk moved into
    [output]; [None] is an [output] left as the host passed it, without
    rows. *)
Definition Scan (data : YahooFunctionData)
  : result (YahooFunctionData * option DataChunk) :=
  match plan data with
  | None => Ok (data, None)
  | Some rel =>
      result_chunk <- Execute_Fetch rel ;;
      match result_chunk with
      | None => Ok (data, None)
      | Some chunk =>
          let '(p, data') := GeneratePlan data in
          Ok (set_plan p data', Some chunk)
      end
  end.

End Scanner.

(** ** Driving the cursor *)

(** A window as it is issued: the cursor bounds [GeneratePlan] read before
    it advanced them, and the relation it built from them. *)
Record Window : Type := {
  cursorFrom : Z;
  cursorTo : Z;
  request : ReadCSVRelation
}.

(** [GeneratePlan] called until it returns the null pointer: the windows
    issued in order and the bind data left behind; [None] when [fuel] calls
    did not reach the null pointer. *)
Fixpoint PullAll (fuel : nat) (data : YahooFunctionData)
  : option (list Window * YahooFunctionData) :=
  match fuel with
  | O => None
  | S fuel' =>
      match GeneratePlan data with
      | (None, data') => Some ([], data')
      | (Some rel, data') =>
          match PullAll fuel' data' with
          | Some (ws, final) =>
              Some ({| cursorFrom := from_epoch data;
                       cursorTo := cur_to_epoch data;
                       request := rel |} :: ws, final)
          | None => None
          end
      end
  end.

(** [n] calls of [GeneratePlan], keeping only the bind data. *)
Fixpoint GeneratePlan_iter (n : nat) (data : YahooFunctionData)
  : YahooFunctionData :=
  match n with
  | O => data
  | S n' => GeneratePlan_iter n' (snd (GeneratePlan data))
  end.

Section HostLoop.

Variable DataChunk : Type.
Variable Execute_Fetch : ReadCSVRelation -> result (option DataChunk).

(** The host's pull loop: [Scan] is called until it leaves [output]
    without rows; the chunks received in order and the bind data left
    behind, [None] when [fuel] calls did not reach the end. *)
Fixpoint ScanLoop (fuel : nat) (data : YahooFunctionData)
  : result (option (list DataChunk * YahooFunctionData)) :=
  match fuel with
  | O => Ok None
  | S fuel' =>
      r <- Scan DataChunk Execute_Fetch data ;;
      match r with
      | (data', None) => Ok (Some ([], data'))
      | (data', Some chunk) =>
          rest <- ScanLoop fuel' data' ;;
          Ok (option_map (fun '(cs, final) => (chunk :: cs, final)) rest)
      end
  end.

(** [n] calls of [Scan], keeping only the bind data ([None] once a call
    throws). *)
Fixpoint Scan_iter (n : nat) (data : YahooFunctionData)
  : option YahooFunctionData :=
  match n with
  | O => Some data
  | S n' =>
      match Scan DataChunk Execute_Fetch data with
      | Ok (data', _) => Scan_iter n' data'
      | _ => None
      end
  end.

End HostLoop.

(** ** The spec's windowing arithmetic, in its own words *)

Definition spec_expectedSamples (fromEpoch toEpoch intervalSeconds : Z) : Z :=
  (toEpoch - fromEpoch) / intervalSeconds + 1.

Definition spec_stepSize (fromEpoch toEpoch expectedSamples : Z) : Z :=
  if 60 <? expectedSamples
  then (toEpoch - fromEpoch) / (expectedSamples / 60 + 1)
  else toEpoch - fromEpoch.

Definition ceil_div (a b : Z) : Z := (a + b - 1) / b.

(** The half-open intervals of [ws] cover the closed range [lo, hi]. *)
Definition covers (ws : list Window) (lo hi : Z) : Prop :=
  forall x, lo <= x <= hi ->
    exists w, In w ws /\ cursorFrom w <= x < cursorTo w.

(** The requests the code can be given without leaving 64-bit arithmetic:
    the range is not empty, and one range past its end is still
    representable (the cursor is advanced once past [to_epoch]). *)
Definition valid_range (from to : Z) : Prop :=
  INT64_MIN <= from /\ from < to /\ to + (to - from) <= INT64_MAX.

(** On a valid request the constructor's [expected_tuples] and
    [increment_epoch] have these closed forms ([expected_tuples_of_valid],
    [increment_of_valid]), and the generator issues [window_count]
    windows ([PullAll_valid]). *)
Definition expected_tuples (from to : Z) (i : string) : Z :=
  wrap32 (spec_expectedSamples from to (IntervalInEpoch i)).

Definition increment (from to : Z) (i : string) : Z :=
  spec_stepSize from to (expected_tuples from to i).

Definition window_count (from to : Z) (i : string) : nat :=
  Z.to_nat ((to - from) / increment from to i).

(** The number of windows the constructor divides the range into. *)
Definition planned_windows (expectedSamples : Z) : Z :=
  if 60 <? expectedSamples then expectedSamples / 60 + 1 else 1.

(** The [k]-th window of a cursor whose first window is [from, from + step]. *)
Definition window_at (symbol_ interval_ : string) (from step : Z) (k : nat)
  : Window :=
  {| cursorFrom := from + Z.of_nat k * step;
     cursorTo := from + (Z.of_nat k + 1) * step;
     request :=
       csv_rel (request_url symbol_
                  (to_string (from + Z.of_nat k * step))
                  (to_string (from + (Z.of_nat k + 1) * step))
                  interval_) |}.

(** The bind data [k] windows after the first, for a cursor whose first
    window is [from, from + step]. *)
Definition cursor (sym i : string) (p : option ReadCSVRelation)
  (from to step : Z) (k : nat) : YahooFunctionData :=
  {| plan := p;
     symbol := sym;
     from_epoch := from + Z.of_nat k * step;
     cur_to_epoch := from + (Z.of_nat k + 1) * step;
     to_epoch := to;
     interval := i;
     increment_epoch := step |}.

(** Sample collaborators and a sample cursor, for concrete runs: a
    conversion that always fails, the epoch of a date as its day number
    times the seconds of a day, and the cursor of the single window
    2024-01-01 to 2024-01-10. *)
Definition no_cast (s : string) : result date_t :=
  Throw (OtherException "conversion").

Definition days_epoch (d : date_t) : Z := d * SECS_PER_DAY.

Definition sample_cursor : YahooFunctionData :=
  {| plan := None; symbol := "AAPL";
     from_epoch := 1704067200; cur_to_epoch := 1704844800;
     to_epoch := 1704844800; interval := "1d";
     increment_epoch := 777600 |}.

(** A sample collaborator over chunks that are strings: the URL of the
    relation stands for its rows, except at the URL [stop], where the
    collaborator answers [outcome]. *)
Definition sample_fetch (stop : string) (outcome : result (option string))
  (rel : ReadCSVRelation) : result (option string) :=
  if String.eqb (csv_file rel) stop then outcome
  else Ok (Some (csv_file rel)).

(** [s] occurs in [t]. *)
Fixpoint contains (s t : string) : bool :=
  String.prefix s t ||
  match t with
  | EmptyString => false
  | String _ t' => contains s t'
  end.

(** ** Fixed-width arithmetic *)

Lemma wrap64_small (z : Z) : in_int64 z -> wrap64 z = z.
Proof.
  unfold in_int64, INT64_MIN, INT64_MAX, wrap64, wrap. intros H.
  rewrite Z.mod_small; lia.
Qed.

Lemma wrap32_small (z : Z) : in_int z -> wrap32 z = z.
Proof.
  unfold in_int, INT_MIN, INT_MAX, wrap32, wrap. intros H.
  rewrite Z.mod_small; lia.
Qed.

Lemma wrap32_range (z : Z) : in_int (wrap32 z).
Proof.
  unfold in_int, INT_MIN, INT_MAX, wrap32, wrap.
  pose proof (Z.mod_pos_bound (z + 2 ^ (32 - 1)) (2 ^ 32) eq_refl). lia.
Qed.

(** A positive value that does not survive the conversion to [int] is
    above [INT_MAX]. *)
Lemma wrap32_pos_cases (z : Z) :
  0 <= z -> wrap32 z = z \/ INT_MAX < z.
Proof.
  intros Hz. destruct (Z_le_gt_dec z INT_MAX) as [Hle | Hgt].
  - left. apply wrap32_small. unfold in_int, INT_MIN, INT_MAX in *. lia.
  - right. lia.
Qed.

Lemma add64_small (a b : Z) : in_int64 (a + b) -> add64 a b = a + b.
Proof. apply wrap64_small. Qed.

Lemma sub64_small (a b : Z) : in_int64 (a - b) -> sub64 a b = a - b.
Proof. apply wrap64_small. Qed.

Lemma div64_pos (a b : Z) :
  0 <= a -> a <= INT64_MAX -> 0 < b -> div64 a b = Ok (a / b).
Proof.
  intros Ha Hmax Hb. unfold div64.
  destruct (Z.eqb_spec b 0) as [-> | _]; [lia |].
  rewrite Z.quot_div_nonneg by lia.
  rewrite wrap64_small; [reflexivity |].
  unfold in_int64, INT64_MIN, INT64_MAX in *.
  pose proof (Z.div_pos a b Ha Hb).
  pose proof (Z.div_le_upper_bound a b a Hb ltac:(nia)). lia.
Qed.

(** ** Interval calendar *)

Lemma ValidInterval_cases (i : string) :
  ValidInterval i = Ok tt ->
  i = "1d" \/ i = "5d" \/ i = "1wk" \/ i = "1mo" \/ i = "3mo".
Proof.
  unfold ValidInterval, find_interval, valid_interval. simpl.
  destruct (String.eqb_spec i "1d"); [tauto |].
  destruct (String.eqb_spec i "5d"); [tauto |].
  destruct (String.eqb_spec i "1wk"); [tauto |].
  destruct (String.eqb_spec i "1mo"); [tauto |].
  destruct (String.eqb_spec i "3mo"); [tauto |].
  simpl. discriminate.
Qed.

Lemma ValidInterval_throws (i : string) :
  ValidInterval i <> Ok tt ->
  ValidInterval i = Throw (InvalidInputException invalid_interval_message).
Proof.
  unfold ValidInterval. destruct (find_interval i); simpl; congruence.
Qed.

Lemma IntervalInEpoch_bounds (i : string) :
  ValidInterval i = Ok tt -> 86400 <= IntervalInEpoch i <= 7776000.
Proof.
  intros H.
  destruct (ValidInterval_cases i H) as [-> | [-> | [-> | [-> | ->]]]];
    vm_compute; split; discriminate.
Qed.

(** ** The constructor *)

Lemma range_facts (from to : Z) :
  valid_range from to ->
  0 < to - from /\ in_int64 (to - from) /\ in_int64 to /\ in_int64 from.
Proof.
  intros (H1 & H2 & H3).
  unfold in_int64, INT64_MIN, INT64_MAX in *. lia.
Qed.

Section Constructor.

Variables (sym i : string) (from to : Z).
Hypothesis Hvalid : ValidInterval i = Ok tt.
Hypothesis Hrange : valid_range from to.

(** The sample count as the code stores it, and the step it derives. *)
Let e : Z := wrap32 (spec_expectedSamples from to (IntervalInEpoch i)).
Let step : Z := spec_stepSize from to e.

Lemma expected_tuples_of_valid :
  expected_tuples_of from to (IntervalInEpoch i) = Ok e.
Proof.
  destruct (range_facts from to Hrange) as (HD & HDr & _ & _).
  pose proof (IntervalInEpoch_bounds i Hvalid) as HI.
  unfold expected_tuples_of.
  rewrite sub64_small by assumption.
  rewrite div64_pos by (unfold in_int64 in HDr; lia). simpl.
  rewrite add64_small; [reflexivity |].
  unfold in_int64, INT64_MIN, INT64_MAX in *.
  pose proof (Z.div_pos (to - from) (IntervalInEpoch i) ltac:(lia) ltac:(lia)).
  pose proof (Z.mul_div_le (to - from) (IntervalInEpoch i) ltac:(lia)).
  nia.
Qed.

(** The divisor of the second division, when it is taken. *)
Lemma chunks_bounds :
  60 < e ->
  add32 (Z.quot e 60) 1 = e / 60 + 1 /\ 2 <= e / 60 + 1 <= to - from.
Proof.
  intros He.
  destruct (range_facts from to Hrange) as (HD & HDr & _ & _).
  pose proof (IntervalInEpoch_bounds i Hvalid) as HI.
  pose proof (wrap32_range (spec_expectedSamples from to (IntervalInEpoch i)))
    as Hr. fold e in Hr. unfold in_int, INT_MIN, INT_MAX in Hr.
  rewrite Z.quot_div_nonneg by lia.
  assert (Hq1 : 1 <= e / 60) by (apply Z.div_le_lower_bound; lia).
  pose proof (Z.mul_div_le e 60 eq_refl) as Hq2.
  split.
  - unfold add32. apply wrap32_small. unfold in_int, INT_MIN, INT_MAX. lia.
  - split; [lia |].
    pose proof (Z.div_pos (to - from) (IntervalInEpoch i) ltac:(lia) ltac:(lia))
      as Hq0.
    pose proof (Z.mul_div_le (to - from) (IntervalInEpoch i) ltac:(lia)) as Hm.
    destruct (wrap32_pos_cases
                (spec_expectedSamples from to (IntervalInEpoch i))) as [Heq | Hbig].
    + unfold spec_expectedSamples. lia.
    + fold e in Heq. unfold spec_expectedSamples in Heq. nia.
    + unfold spec_expectedSamples, INT_MAX in Hbig. nia.
Qed.

Lemma step_bounds : 0 < step <= to - from.
Proof.
  destruct (range_facts from to Hrange) as (HD & _).
  unfold step, spec_stepSize.
  destruct (Z.ltb_spec 60 e) as [He | He]; [| lia].
  destruct (chunks_bounds He) as (_ & Hm).
  split.
  - apply Z.div_str_pos. lia.
  - apply Z.div_le_upper_bound; nia.
Qed.

Lemma increment_of_valid : increment_of from to e = Ok step.
Proof.
  destruct (range_facts from to Hrange) as (HD & HDr & _ & _).
  unfold increment_of, step, spec_stepSize.
  rewrite sub64_small by assumption.
  destruct (Z.ltb_spec 60 e) as [He | He]; [| reflexivity].
  destruct (chunks_bounds He) as (-> & Hm).
  apply div64_pos; unfold in_int64 in HDr; lia.
Qed.

Lemma YahooFunctionData_new_valid :
  YahooFunctionData_new sym from to i =
  Ok {| plan := None;
        symbol := sym;
        from_epoch := from;
        cur_to_epoch := Z.min (from + step) to;
        to_epoch := to;
        interval := i;
        increment_epoch := step |}.
Proof.
  destruct (range_facts from to Hrange) as (HD & HDr & Hto & Hfrom).
  pose proof step_bounds as Hs.
  unfold YahooFunctionData_new.
  rewrite expected_tuples_of_valid. simpl.
  rewrite increment_of_valid. simpl.
  rewrite add64_small
    by (unfold in_int64, INT64_MIN, INT64_MAX in *; lia).
  do 2 f_equal.
  destruct (Z.ltb_spec (from + step) to); lia.
Qed.

Lemma first_window_end : Z.min (from + step) to = from + step.
Proof. pose proof step_bounds. lia. Qed.

End Constructor.

(** ** The window generator *)

Lemma GeneratePlan_done (d : YahooFunctionData) :
  to_epoch d < cur_to_epoch d -> GeneratePlan d = (None, d).
Proof.
  intros H. unfold GeneratePlan.
  destruct (Z.ltb_spec (to_epoch d) (cur_to_epoch d)); [reflexivity | lia].
Qed.

Lemma GeneratePlan_issue (d : YahooFunctionData) :
  cur_to_epoch d <= to_epoch d ->
  GeneratePlan d =
  (Some (csv_rel (request_url (symbol d) (to_string (from_epoch d))
                    (to_string (cur_to_epoch d)) (interval d))),
   advance d).
Proof.
  intros H. unfold GeneratePlan.
  destruct (Z.ltb_spec (to_epoch d) (cur_to_epoch d)); [lia | reflexivity].
Qed.

Section Cursor.

Variables (sym i : string) (p : option ReadCSVRelation) (from to step : Z).
Let cur : nat -> YahooFunctionData := cursor sym i p from to step.
Hypothesis Hstep : 0 < step.
Hypothesis Hfrom : INT64_MIN <= from.
Hypothesis Hto : to + step <= INT64_MAX.

Lemma advance_cursor (k : nat) :
  from + (Z.of_nat k + 1) * step <= to ->
  advance (cur k) = cur (S k).
Proof.
  intros Hk. unfold cur, advance, cursor. simpl plan. simpl symbol.
  cbn [from_epoch cur_to_epoch to_epoch interval increment_epoch].
  rewrite !add64_small
    by (unfold in_int64, INT64_MIN, INT64_MAX in *; nia).
  f_equal; lia.
Qed.

Lemma GeneratePlan_cursor_issue (k : nat) :
  from + (Z.of_nat k + 1) * step <= to ->
  GeneratePlan (cur k) =
  (Some (request (window_at sym i from step k)), cur (S k)).
Proof.
  intros Hk. rewrite GeneratePlan_issue by exact Hk.
  rewrite advance_cursor by exact Hk. reflexivity.
Qed.

Lemma GeneratePlan_cursor_done (k : nat) :
  to < from + (Z.of_nat k + 1) * step ->
  GeneratePlan (cur k) = (None, cur k).
Proof. intros Hk. apply GeneratePlan_done. exact Hk. Qed.

(** From the [k]-th cursor, with [n] windows left below [to], the
    generator issues exactly these [n] windows and then the null
    pointer, whatever fuel is left over. *)
Lemma PullAll_cursor (n : nat) :
  forall (k fuel : nat),
    (n < fuel)%nat ->
    from + Z.of_nat (k + n) * step <= to < from + (Z.of_nat (k + n) + 1) * step ->
    PullAll fuel (cur k) =
    Some (map (window_at sym i from step) (seq k n), cur (k + n)).
Proof.
  induction n as [| n IH]; intros k fuel Hfuel Hn;
    (destruct fuel as [| fuel]; [lia |]).
  - rewrite Nat.add_0_r in *. simpl.
    rewrite GeneratePlan_cursor_done by lia. reflexivity.
  - assert (Hk : from + (Z.of_nat k + 1) * step <= to) by nia.
    cbn [PullAll]. rewrite GeneratePlan_cursor_issue by exact Hk.
    rewrite (IH (S k) fuel) by (try lia; replace (S k + n)%nat with (k + S n)%nat by lia; exact Hn).
    replace (S k + n)%nat with (k + S n)%nat by lia.
    reflexivity.
Qed.

End Cursor.

(** ** Claims on the interval calendar *)

(** C8: [IntervalInEpoch] returns 86400 for "1d", 5 x 86400 for "5d",
    7 x 86400 for "1wk", 30 x 86400 for "1mo" and 90 x 86400 for "3mo";
    for every other string it returns 0. *)
Theorem IntervalInEpoch_table :
  IntervalInEpoch "1d" = 86400 /\
  IntervalInEpoch "5d" = 5 * 86400 /\
  IntervalInEpoch "1wk" = 7 * 86400 /\
  IntervalInEpoch "1mo" = 30 * 86400 /\
  IntervalInEpoch "3mo" = 90 * 86400 /\
  forall s : string,
    s <> "1d" -> s <> "5d" -> s <> "1wk" -> s <> "1mo" -> s <> "3mo" ->
    IntervalInEpoch s = 0.
Proof.
  repeat (split; [reflexivity |]).
  intros s H1 H2 H3 H4 H5. unfold IntervalInEpoch.
  destruct (String.eqb_spec s "1d"); [contradiction |].
  destruct (String.eqb_spec s "5d"); [contradiction |].
  destruct (String.eqb_spec s "1wk"); [contradiction |].
  destruct (String.eqb_spec s "1mo"); [contradiction |].
  destruct (String.eqb_spec s "3mo"); [contradiction |].
  reflexivity.
Qed.

Lemma IntervalInEpoch_table_witness :
  IntervalInEpoch "2d" = 0 /\ IntervalInEpoch "1D" = 0 /\ IntervalInEpoch "" = 0.
Proof.
  destruct IntervalInEpoch_table as (_ & _ & _ & _ & _ & H).
  repeat split; apply H; discriminate.
Defined.

(** C9: once [ValidInterval] has accepted the label, [IntervalInEpoch] is
    strictly positive, and neither division of the constructor has a zero
    divisor: the constructor returns bind data for every pair of epochs. *)
Theorem valid_interval_no_division_by_zero (i : string) :
  ValidInterval i = Ok tt ->
  0 < IntervalInEpoch i /\
  forall (sym : string) (from to : Z),
    (exists e, expected_tuples_of from to (IntervalInEpoch i) = Ok e /\
               exists inc, increment_of from to e = Ok inc) /\
    exists d, YahooFunctionData_new sym from to i = Ok d.
Proof.
  intros Hv. pose proof (IntervalInEpoch_bounds i Hv) as HI.
  split; [lia |]. intros sym from to.
  assert (He : exists e, expected_tuples_of from to (IntervalInEpoch i) = Ok e
                         /\ in_int e).
  { unfold expected_tuples_of, div64.
    destruct (Z.eqb_spec (IntervalInEpoch i) 0); [lia |].
    simpl. eexists. split; [reflexivity | apply wrap32_range]. }
  destruct He as (e & He & Hr).
  assert (Hinc : exists inc, increment_of from to e = Ok inc).
  { unfold increment_of, div64.
    destruct (Z.ltb_spec 60 e) as [H60 | H60]; [| eexists; reflexivity].
    assert (Hm : add32 (Z.quot e 60) 1 = e / 60 + 1).
    { rewrite Z.quot_div_nonneg by lia.
      pose proof (Z.mul_div_le e 60 eq_refl).
      pose proof (Z.div_pos e 60 ltac:(lia) eq_refl).
      apply wrap32_small. unfold in_int, INT_MIN, INT_MAX in *. lia. }
    rewrite Hm.
    pose proof (Z.div_pos e 60 ltac:(lia) eq_refl).
    destruct (Z.eqb_spec (e / 60 + 1) 0); [lia |].
    eexists; reflexivity. }
  destruct Hinc as (inc & Hinc).
  split.
  - exists e. split; [exact He |]. exists inc. exact Hinc.
  - unfold YahooFunctionData_new. rewrite He. simpl. rewrite Hinc. simpl.
    eexists; reflexivity.
Qed.

Lemma valid_interval_no_division_by_zero_witness :
  ValidInterval "1wk" = Ok tt /\
  0 < IntervalInEpoch "1wk" /\
  exists d, YahooFunctionData_new "AAPL" 1704067200 1704844800 "1wk" = Ok d.
Proof.
  split; [reflexivity |].
  destruct (valid_interval_no_division_by_zero "1wk" eq_refl) as (Hpos & H).
  split; [exact Hpos |].
  exact (proj2 (H "AAPL" 1704067200 1704844800)).
Defined.

(** ** Claims on binding *)

Lemma find_interval_In (s : string) :
  find_interval s = true <-> In s valid_interval.
Proof.
  unfold find_interval. rewrite existsb_exists. split.
  - intros (x & Hx & Heq). apply String.eqb_eq in Heq. subst. exact Hx.
  - intros H. exists s. split; [exact H | apply String.eqb_refl].
Qed.

Lemma ValidInterval_Ok_iff (s : string) :
  ValidInterval s = Ok tt <-> In s valid_interval.
Proof.
  rewrite <- find_interval_In. unfold ValidInterval.
  destruct (find_interval s); simpl; split; congruence.
Qed.

(** C6: with period arguments that are dates (or VARCHARs the engine
    converts to dates), [Bind] throws before it builds anything: for an
    interval that is not exactly one of 1d, 5d, 1wk, 1mo, 3mo the exception
    carries the message that lists these five; for a valid interval and an
    end date not after the start date it carries the invalid-range
    message; whichever of the two is wrong, [Bind] throws. *)
Theorem Bind_rejects_invalid_input
  (CastToDate : string -> result date_t) (Date_Epoch : date_t -> Z)
  (input : TableFunctionBindInput)
  (return_types_p : list LogicalType) (names_p : list string)
  (from_date to_date : date_t) :
  check_period_type (input_from input) = Ok tt ->
  check_period_type (input_to input) = Ok tt ->
  GetValue_date CastToDate (input_from input) = Ok from_date ->
  GetValue_date CastToDate (input_to input) = Ok to_date ->
  (~ In (input_interval input) valid_interval ->
   Bind CastToDate Date_Epoch input return_types_p names_p =
   Throw (InvalidInputException invalid_interval_message)) /\
  (In (input_interval input) valid_interval -> to_date <= from_date ->
   Bind CastToDate Date_Epoch input return_types_p names_p =
   Throw (InvalidInputException
            "The End period must be higher than the start period")) /\
  forallb (fun label => contains label invalid_interval_message)
    ["1d"; "5d"; "1wk"; "1mo"; "3mo"] = true /\
  (~ In (input_interval input) valid_interval \/ to_date <= from_date ->
   exists msg,
     Bind CastToDate Date_Epoch input return_types_p names_p =
     Throw (InvalidInputException msg)).
Proof.
  intros Hf Ht Hfd Htd.
  assert (Hbad : ~ In (input_interval input) valid_interval ->
                 Bind CastToDate Date_Epoch input return_types_p names_p =
                 Throw (InvalidInputException invalid_interval_message)).
  { intros Hbad. unfold Bind. rewrite Hf, Ht, Hfd, Htd. simpl.
    rewrite ValidInterval_throws; [reflexivity |].
    rewrite ValidInterval_Ok_iff. exact Hbad. }
  assert (Hrange : In (input_interval input) valid_interval ->
                   to_date <= from_date ->
                   Bind CastToDate Date_Epoch input return_types_p names_p =
                   Throw (InvalidInputException
                            "The End period must be higher than the start period")).
  { intros Hgood Hle. unfold Bind. rewrite Hf, Ht, Hfd, Htd. simpl.
    apply ValidInterval_Ok_iff in Hgood. rewrite Hgood. simpl.
    destruct (Z.leb_spec to_date from_date); [reflexivity | lia]. }
  split; [exact Hbad |].
  split; [exact Hrange |].
  split; [vm_compute; reflexivity |].
  intros Hinvalid.
  destruct (in_dec string_dec (input_interval input) valid_interval)
    as [Hin | Hnotin].
  - destruct Hinvalid as [Hnot | Hle]; [contradiction |].
    eexists. apply Hrange; assumption.
  - eexists. apply Hbad. exact Hnotin.
Qed.

Lemma Bind_rejects_invalid_input_witness :
  (forall bad, In bad ["2d"; "1D"; "1WK"; ""; " 1d"] ->
     Bind no_cast days_epoch
       {| input_symbol := "AAPL"; input_from := DateValue 19723;
          input_to := DateValue 19732; input_interval := bad |} [] [] =
     Throw (InvalidInputException invalid_interval_message)) /\
  Bind no_cast days_epoch
    {| input_symbol := "AAPL"; input_from := DateValue 19732;
       input_to := DateValue 19732; input_interval := "1d" |} [] [] =
  Throw (InvalidInputException
           "The End period must be higher than the start period") /\
  exists msg,
    Bind no_cast days_epoch
      {| input_symbol := "AAPL"; input_from := DateValue 19732;
         input_to := DateValue 19723; input_interval := "2d" |} [] [] =
    Throw (InvalidInputException msg).
Proof.
  split; [| split].
  - intros bad Hbad.
    refine (proj1 (Bind_rejects_invalid_input no_cast days_epoch
                     {| input_symbol := "AAPL"; input_from := DateValue 19723;
                        input_to := DateValue 19732; input_interval := bad |}
                     [] [] 19723 19732 eq_refl eq_refl eq_refl eq_refl) _).
    simpl in *. intuition (subst; discriminate).
  - refine (proj1 (proj2 (Bind_rejects_invalid_input no_cast days_epoch
                     {| input_symbol := "AAPL"; input_from := DateValue 19732;
                        input_to := DateValue 19732; input_interval := "1d" |}
                     [] [] 19732 19732 eq_refl eq_refl eq_refl eq_refl)) _ _).
    + simpl. tauto.
    + simpl. lia.
  - refine (proj2 (proj2 (proj2 (Bind_rejects_invalid_input no_cast days_epoch
                     {| input_symbol := "AAPL"; input_from := DateValue 19732;
                        input_to := DateValue 19723; input_interval := "2d" |}
                     [] [] 19732 19723 eq_refl eq_refl eq_refl eq_refl))) _).
    right. lia.
Defined.

(** ** Claims on the window generator *)

(** C7: a window that is issued carries a request whose URL has exactly the
    symbol, period1 = the cursor's from bound before the advance, period2 =
    its to bound before the advance, the interval and events=history; the
    relation reads the seven columns Date (date), Open, High, Low, Close,
    Adj Close (double) and Volume (hugeint) in this order, with a header
    row and "null" as the missing-value marker; the columns and reader
    parameters are the same for every request. *)
Theorem GeneratePlan_request (d : YahooFunctionData) :
  forall rel d',
    GeneratePlan d = (Some rel, d') ->
    csv_file rel =
      ("https://query1.finance.yahoo.com/v7/finance/download/" ++
       symbol d ++ "?period1=" ++ to_string (from_epoch d) ++
       "&period2=" ++ to_string (cur_to_epoch d) ++
       "&interval=" ++ interval d ++ "&events=history")%string /\
    Columns rel =
      [ {| Name := "Date"; Type_ := DATE |};
        {| Name := "Open"; Type_ := DOUBLE |};
        {| Name := "High"; Type_ := DOUBLE |};
        {| Name := "Low"; Type_ := DOUBLE |};
        {| Name := "Close"; Type_ := DOUBLE |};
        {| Name := "Adj Close"; Type_ := DOUBLE |};
        {| Name := "Volume"; Type_ := HUGEINT |} ] /\
    named_parameters rel =
      [("HEADER", BooleanValue true); ("NULLSTR", VarcharValue "null")] /\
    forall d2 rel2 d2',
      GeneratePlan d2 = (Some rel2, d2') ->
      Columns rel2 = Columns rel /\
      named_parameters rel2 = named_parameters rel.
Proof.
  intros rel d' H. unfold GeneratePlan in H.
  destruct (to_epoch d <? cur_to_epoch d); [discriminate |].
  injection H as <- <-.
  repeat split; try reflexivity;
    unfold GeneratePlan in H;
    (destruct (to_epoch d2 <? cur_to_epoch d2); [discriminate |]);
    injection H as <- <-; reflexivity.
Qed.

Lemma GeneratePlan_request_witness :
  exists rel d',
    GeneratePlan sample_cursor = (Some rel, d') /\
    csv_file rel =
      "https://query1.finance.yahoo.com/v7/finance/download/AAPL?period1=1704067200&period2=1704844800&interval=1d&events=history".
Proof.
  exists (csv_rel (request_url "AAPL" "1704067200" "1704844800" "1d")).
  exists (advance sample_cursor).
  split; [reflexivity |].
  exact (proj1 (GeneratePlan_request sample_cursor
                  (csv_rel (request_url "AAPL" "1704067200" "1704844800" "1d"))
                  (advance sample_cursor) eq_refl)).
Defined.

(** C10: when [GeneratePlan] returns a plan it has added [increment_epoch]
    to [from_epoch] and to [cur_to_epoch] (64-bit additions, exact whenever
    the sums are representable) and has left [symbol], [interval],
    [to_epoch], [increment_epoch] and [plan] as they were; [Bind] makes one
    such call for the first window, so the plan it stores requests the
    constructor's first window and the cursor it returns is already on the
    second. *)
Theorem GeneratePlan_advances_and_frames
  (CastToDate : string -> result date_t) (Date_Epoch : date_t -> Z) :
  (forall d rel d',
     GeneratePlan d = (Some rel, d') ->
     from_epoch d' = add64 (from_epoch d) (increment_epoch d) /\
     cur_to_epoch d' = add64 (cur_to_epoch d) (increment_epoch d) /\
     (in_int64 (from_epoch d + increment_epoch d) ->
      from_epoch d' = from_epoch d + increment_epoch d) /\
     (in_int64 (cur_to_epoch d + increment_epoch d) ->
      cur_to_epoch d' = cur_to_epoch d + increment_epoch d) /\
     symbol d' = symbol d /\ interval d' = interval d /\
     to_epoch d' = to_epoch d /\ increment_epoch d' = increment_epoch d /\
     plan d' = plan d) /\
  (forall input return_types_p names_p from_date to_date,
     check_period_type (input_from input) = Ok tt ->
     check_period_type (input_to input) = Ok tt ->
     GetValue_date CastToDate (input_from input) = Ok from_date ->
     GetValue_date CastToDate (input_to input) = Ok to_date ->
     ValidInterval (input_interval input) = Ok tt ->
     from_date < to_date ->
     valid_range (Date_Epoch from_date) (Date_Epoch to_date) ->
     exists d0 rel out,
       YahooFunctionData_new (input_symbol input) (Date_Epoch from_date)
         (Date_Epoch to_date) (input_interval input) = Ok d0 /\
       Bind CastToDate Date_Epoch input return_types_p names_p = Ok out /\
       plan (bind_data out) = Some rel /\
       csv_file rel =
         request_url (input_symbol input) (to_string (from_epoch d0))
           (to_string (cur_to_epoch d0)) (input_interval input) /\
       from_epoch d0 = Date_Epoch from_date /\
       cur_to_epoch d0 =
         Z.min (Date_Epoch from_date + increment_epoch d0) (Date_Epoch to_date) /\
       from_epoch (bind_data out) = from_epoch d0 + increment_epoch d0 /\
       cur_to_epoch (bind_data out) = cur_to_epoch d0 + increment_epoch d0 /\
       to_epoch (bind_data out) = Date_Epoch to_date /\
       increment_epoch (bind_data out) = increment_epoch d0).
Proof.
  split.
  - intros d rel d' H. unfold GeneratePlan in H.
    destruct (to_epoch d <? cur_to_epoch d); [discriminate |].
    injection H as _ <-. simpl.
    repeat split; try reflexivity; intros Hr; apply add64_small; exact Hr.
  - intros input rt nm from_date to_date Hf Ht Hfd Htd Hv Hlt Hrange.
    pose proof (YahooFunctionData_new_valid (input_symbol input)
                  (input_interval input) _ _ Hv Hrange) as Hnew.
    pose proof (step_bounds (input_interval input) _ _ Hv Hrange) as Hs.
    pose proof (range_facts _ _ Hrange) as (HD & HDr & Htor & Hfromr).
    destruct Hrange as (Hmin & Hft & Hmax).
    eexists. eexists. eexists.
    split; [exact Hnew |].
    unfold Bind. rewrite Hf, Ht, Hfd, Htd, Hv. simpl.
    destruct (Z.leb_spec to_date from_date); [lia |].
    rewrite Hnew. simpl.
    rewrite GeneratePlan_issue by (simpl; lia).
    split; [reflexivity |].
    cbn [plan symbol from_epoch cur_to_epoch to_epoch interval increment_epoch
         bind_data set_plan advance csv_file csv_rel].
    do 4 (split; [reflexivity |]).
    unfold in_int64, INT64_MIN, INT64_MAX in *.
    rewrite !add64_small by (unfold in_int64, INT64_MIN, INT64_MAX; lia).
    repeat split; reflexivity.
Qed.

Lemma GeneratePlan_advances_and_frames_witness :
  (exists out,
     Bind no_cast days_epoch
       {| input_symbol := "AAPL"; input_from := DateValue 19723;
          input_to := DateValue 20123; input_interval := "1d" |} [] [] = Ok out /\
     from_epoch (bind_data out) = 19723 * 86400 + 4937142 /\
     cur_to_epoch (bind_data out) = 19723 * 86400 + 2 * 4937142) /\
  from_epoch (advance sample_cursor) = 1704067200 + 777600 /\
  cur_to_epoch (advance sample_cursor) = 1704844800 + 777600.
Proof.
  assert (Hr : valid_range (days_epoch 19723) (days_epoch 20123)).
  { unfold valid_range, days_epoch, INT64_MIN, INT64_MAX, SECS_PER_DAY. lia. }
  split.
  - destruct (proj2 (GeneratePlan_advances_and_frames no_cast days_epoch)
                {| input_symbol := "AAPL"; input_from := DateValue 19723;
                   input_to := DateValue 20123; input_interval := "1d" |}
                [] [] 19723 20123 eq_refl eq_refl eq_refl eq_refl eq_refl
                eq_refl Hr)
      as (d0 & rel & out & Hnew & Hbind & _ & _ & _ & _ & Hfrom & Hto & _).
    exists out. split; [exact Hbind |].
    injection Hnew as <-. simpl in Hfrom, Hto.
    split; assumption.
  - destruct (proj1 (GeneratePlan_advances_and_frames no_cast days_epoch)
                sample_cursor
                (csv_rel (request_url "AAPL" "1704067200" "1704844800" "1d"))
                (advance sample_cursor) eq_refl)
      as (_ & _ & Hfrom & Hto & _).
    split; [apply Hfrom | apply Hto];
      unfold in_int64, INT64_MIN, INT64_MAX; simpl; lia.
Defined.

(** ** Claims on the end of the stream *)

Lemma GeneratePlan_iter_done (d : YahooFunctionData) :
  to_epoch d < cur_to_epoch d -> forall n, GeneratePlan_iter n d = d.
Proof.
  intros H n. induction n as [| n IH]; [reflexivity |].
  simpl. rewrite GeneratePlan_done by exact H. exact IH.
Qed.

Lemma Scan_done (DataChunk : Type)
  (Execute_Fetch : ReadCSVRelation -> result (option DataChunk))
  (d : YahooFunctionData) :
  plan d = None -> Scan DataChunk Execute_Fetch d = Ok (d, None).
Proof. intros H. unfold Scan. rewrite H. reflexivity. Qed.

(** C2, as the code has it: [GeneratePlan] returns the null pointer,
    without building a request and without touching the cursor, exactly
    when [cur_to_epoch > to_epoch] (the cursor's to bound, not its from
    bound; on a cursor with [from_epoch <= cur_to_epoch] the condition
    [from_epoch > to_epoch] implies it); [Scan] returns without executing
    any request exactly when the stored plan is null.  Both conditions are
    terminal: every later [GeneratePlan] returns the null pointer and every
    later [Scan] returns without rows, and neither changes the bind data. *)
Theorem end_of_stream_is_terminal (d : YahooFunctionData) :
  (fst (GeneratePlan d) = None <-> to_epoch d < cur_to_epoch d) /\
  (to_epoch d < cur_to_epoch d ->
   forall n, GeneratePlan (GeneratePlan_iter n d) = (None, d)) /\
  (from_epoch d <= cur_to_epoch d -> to_epoch d < from_epoch d ->
   GeneratePlan d = (None, d)) /\
  (forall DataChunk : Type,
     plan d = None <->
     forall Execute_Fetch, Scan DataChunk Execute_Fetch d = Ok (d, None)) /\
  (plan d = None ->
   forall DataChunk Execute_Fetch n,
     Scan_iter DataChunk Execute_Fetch n d = Some d /\
     ScanLoop DataChunk Execute_Fetch (S n) d = Ok (Some ([], d))).
Proof.
  split; [| split; [| split; [| split]]].
  - unfold GeneratePlan.
    destruct (Z.ltb_spec (to_epoch d) (cur_to_epoch d)); simpl; split;
      intros; try reflexivity; try discriminate; lia.
  - intros H n. rewrite GeneratePlan_iter_done by exact H.
    apply GeneratePlan_done. exact H.
  - intros H1 H2. apply GeneratePlan_done. lia.
  - intros DataChunk. split.
    + intros H Execute_Fetch. apply Scan_done. exact H.
    + intros H. specialize (H (fun _ => Undefined)). unfold Scan in H.
      destruct (plan d); [discriminate | reflexivity].
  - intros H DataChunk Execute_Fetch n. split.
    + induction n as [| n IH]; [reflexivity |].
      simpl. rewrite Scan_done by exact H. exact IH.
    + simpl. rewrite Scan_done by exact H. reflexivity.
Qed.

Lemma end_of_stream_is_terminal_witness :
  GeneratePlan (GeneratePlan_iter 5 (advance sample_cursor)) =
    (None, advance sample_cursor) /\
  Scan_iter unit (fun _ => Ok (Some tt)) 5 (advance sample_cursor) =
    Some (advance sample_cursor) /\
  GeneratePlan (advance (advance sample_cursor)) =
    (None, advance (advance sample_cursor)).
Proof.
  destruct (end_of_stream_is_terminal (advance sample_cursor))
    as (_ & Hgen & _ & _ & Hscan).
  destruct (end_of_stream_is_terminal (advance (advance sample_cursor)))
    as (_ & _ & Hfrom & _).
  split; [apply Hgen; reflexivity |].
  split; [apply (Hscan eq_refl unit (fun _ => Ok (Some tt)) 5%nat) |].
  apply Hfrom; vm_compute; [discriminate | reflexivity].
Defined.

(** C2 as the spec states it fails on the cursor [Bind] returns for the
    single window 2024-01-01 to 2024-01-10: no plan is null, the cursor's
    from bound equals [to_epoch] (so it is not above it), and still
    [GeneratePlan] returns the null pointer without building a request. *)
Lemma end_of_stream_not_on_cursorFrom :
  exists out s,
    Bind no_cast days_epoch
      {| input_symbol := "AAPL"; input_from := DateValue 19723;
         input_to := DateValue 19732; input_interval := "1d" |} [] [] = Ok out /\
    s = bind_data out /\
    plan s <> None /\
    ~ (from_epoch s > to_epoch s) /\
    GeneratePlan s = (None, s).
Proof.
  eexists. eexists. split; [reflexivity |]. split; [reflexivity |].
  split; [discriminate |]. split; [| reflexivity].
  vm_compute. intros H. discriminate H.
Qed.

(** C3 fails on the code: a window whose fetch returns no chunk makes
    [Scan] return before it computes the next window.  On the 400-day
    request 2024-01-01 to 2025-02-04, with a collaborator that has no rows
    for any window, the first [Scan] leaves the bind data as it was (the
    stored plan is still the first window's, although the bounds check
    would let the next window through) and leaves [output] without rows,
    which the host's pull loop reads as the end of the stream. *)
Lemma Scan_empty_window_ends_stream :
  exists out,
    Bind no_cast days_epoch
      {| input_symbol := "AAPL"; input_from := DateValue 19723;
         input_to := DateValue 20123; input_interval := "1d" |} [] [] = Ok out /\
    cur_to_epoch (bind_data out) <= to_epoch (bind_data out) /\
    fst (GeneratePlan (bind_data out)) <> None /\
    Scan unit (fun _ => Ok None) (bind_data out) = Ok (bind_data out, None) /\
    ScanLoop unit (fun _ => Ok None) 10 (bind_data out) =
      Ok (Some ([], bind_data out)).
Proof.
  eexists. split; [reflexivity |].
  split; [vm_compute; discriminate |].
  split; [vm_compute; discriminate |].
  split; reflexivity.
Qed.

(** ** The windows of a valid request *)

Lemma Scan_empty_fetch (DataChunk : Type)
  (Execute_Fetch : ReadCSVRelation -> result (option DataChunk))
  (d : YahooFunctionData) (rel : ReadCSVRelation) :
  plan d = Some rel -> Execute_Fetch rel = Ok None ->
  Scan DataChunk Execute_Fetch d = Ok (d, None).
Proof. intros Hp He. unfold Scan. rewrite Hp, He. reflexivity. Qed.

Lemma Scan_rows (DataChunk : Type)
  (Execute_Fetch : ReadCSVRelation -> result (option DataChunk))
  (d : YahooFunctionData) (rel : ReadCSVRelation) (chunk : DataChunk) :
  plan d = Some rel -> Execute_Fetch rel = Ok (Some chunk) ->
  Scan DataChunk Execute_Fetch d =
  Ok (set_plan (fst (GeneratePlan d)) (snd (GeneratePlan d)), Some chunk).
Proof.
  intros Hp He. unfold Scan. rewrite Hp, He. simpl.
  destruct (GeneratePlan d). reflexivity.
Qed.

Lemma nth_error_map_seq {A : Type} (f : nat -> A) (n k : nat) :
  (k < n)%nat -> nth_error (map f (seq 0 n)) k = Some (f k).
Proof.
  intros Hk. rewrite nth_error_map.
  rewrite (nth_error_nth' _ 0%nat) by (rewrite length_seq; exact Hk).
  rewrite seq_nth by exact Hk. reflexivity.
Qed.

Lemma nth_error_map_seq_inv {A : Type} (f : nat -> A) (n k : nat) (a : A) :
  nth_error (map f (seq 0 n)) k = Some a -> (k < n)%nat /\ a = f k.
Proof.
  intros H.
  assert (Hk : (k < n)%nat).
  { assert (Hs : nth_error (map f (seq 0 n)) k <> None) by congruence.
    apply nth_error_Some in Hs.
    rewrite length_map, length_seq in Hs. exact Hs. }
  split; [exact Hk |].
  rewrite nth_error_map_seq in H by exact Hk. congruence.
Qed.

Section ValidRequest.

Variables (sym i : string) (from to : Z).
Hypothesis Hvalid : ValidInterval i = Ok tt.
Hypothesis Hrange : valid_range from to.

Lemma increment_bounds : 0 < increment from to i <= to - from.
Proof. exact (step_bounds i from to Hvalid Hrange). Qed.

Lemma YahooFunctionData_new_cursor :
  YahooFunctionData_new sym from to i =
  Ok (cursor sym i None from to (increment from to i) 0).
Proof.
  rewrite (YahooFunctionData_new_valid sym i from to Hvalid Hrange).
  rewrite (first_window_end i from to Hvalid Hrange).
  unfold cursor, increment, expected_tuples. do 2 f_equal; lia.
Qed.

Lemma window_count_spec :
  Z.of_nat (window_count from to i) = (to - from) / increment from to i /\
  from + Z.of_nat (window_count from to i) * increment from to i <= to /\
  to < from + (Z.of_nat (window_count from to i) + 1) * increment from to i.
Proof.
  pose proof increment_bounds as Hs.
  destruct (range_facts from to Hrange) as (HD & _).
  unfold window_count.
  pose proof (Z.div_pos (to - from) (increment from to i) ltac:(lia) ltac:(lia)).
  rewrite Z2Nat.id by assumption.
  pose proof (Z.mul_div_le (to - from) (increment from to i) ltac:(lia)).
  pose proof (Z.mul_succ_div_gt (to - from) (increment from to i) ltac:(lia)).
  split; [reflexivity | nia].
Qed.

Lemma PullAll_valid (fuel : nat) :
  (window_count from to i < fuel)%nat ->
  PullAll fuel (cursor sym i None from to (increment from to i) 0) =
  Some (map (window_at sym i from (increment from to i))
          (seq 0 (window_count from to i)),
        cursor sym i None from to (increment from to i)
          (window_count from to i)).
Proof.
  intros Hfuel.
  pose proof increment_bounds as Hs.
  destruct window_count_spec as (_ & Hlo & Hhi).
  destruct Hrange as (Hmin & Hlt & Hmax).
  apply (PullAll_cursor sym i None from to (increment from to i)
           ltac:(lia) Hmin ltac:(lia) (window_count from to i) 0%nat fuel Hfuel).
  simpl. split; assumption.
Qed.

(** A range of at most 60 samples is one window. *)
Lemma window_count_short :
  expected_tuples from to i <= 60 -> window_count from to i = 1%nat.
Proof.
  intros He. destruct (range_facts from to Hrange) as (HD & _).
  unfold window_count, increment, spec_stepSize.
  destruct (Z.ltb_spec 60 (expected_tuples from to i)); [lia |].
  rewrite Z.div_same by lia. reflexivity.
Qed.

(** Below 2^44 seconds the sample count fits an [int]. *)
Lemma expected_tuples_near :
  to - from < 2 ^ 44 ->
  expected_tuples from to i = spec_expectedSamples from to (IntervalInEpoch i).
Proof.
  intros Hnear. destruct (range_facts from to Hrange) as (HD & _).
  pose proof (IntervalInEpoch_bounds i Hvalid) as HI.
  unfold expected_tuples. apply wrap32_small.
  unfold spec_expectedSamples, in_int, INT_MIN, INT_MAX.
  pose proof (Z.div_pos (to - from) (IntervalInEpoch i) ltac:(lia) ltac:(lia)).
  pose proof (Z.mul_div_le (to - from) (IntervalInEpoch i) ltac:(lia)).
  nia.
Qed.

(** Below 2^44 seconds the generator issues as many windows as the
    constructor divided the range into. *)
Lemma window_count_near :
  to - from < 2 ^ 44 ->
  Z.of_nat (window_count from to i) =
  planned_windows (spec_expectedSamples from to (IntervalInEpoch i)).
Proof.
  intros Hnear. destruct (range_facts from to Hrange) as (HD & _).
  pose proof (IntervalInEpoch_bounds i Hvalid) as HI.
  pose proof (expected_tuples_near Hnear) as He.
  unfold planned_windows. rewrite <- He.
  destruct (Z.ltb_spec 60 (expected_tuples from to i)) as [H60 | H60];
    [| rewrite window_count_short by exact H60; reflexivity].
  destruct window_count_spec as (-> & _).
  unfold increment, spec_stepSize.
  destruct (Z.ltb_spec 60 (expected_tuples from to i)); [| lia].
  remember (expected_tuples from to i) as E eqn:HE.
  remember (E / 60 + 1) as m eqn:Hm.
  unfold spec_expectedSamples in He.
  pose proof (Z.mul_div_le E 60 eq_refl) as H1.
  assert (Hm2 : 2 <= m).
  { pose proof (Z.div_le_lower_bound E 60 1 eq_refl ltac:(lia)). lia. }
  assert (Hmm : m * m <= to - from).
  { pose proof (Z.div_pos (to - from) (IntervalInEpoch i) ltac:(lia) ltac:(lia)).
    pose proof (Z.mul_div_le (to - from) (IntervalInEpoch i) ltac:(lia)) as H2.
    assert (H3 : 86400 * ((to - from) / IntervalInEpoch i) <= to - from) by nia.
    assert (H4 : m <= 3393599) by lia.
    assert (H5 : m * m <= 3393599 * m) by nia.
    assert (Hcase : m = 2 \/ 3 <= m) by lia.
    destruct Hcase as [Heq | H3m]; [rewrite Heq; lia | lia]. }
  assert (Hstep : m <= (to - from) / m)
    by (apply Z.div_le_lower_bound; lia).
  symmetry. apply (Z.div_unique _ _ m ((to - from) mod m)).
  - left. pose proof (Z.mod_pos_bound (to - from) m ltac:(lia)). lia.
  - pose proof (Z.div_mod (to - from) m ltac:(lia)). lia.
Qed.

End ValidRequest.

(** ** The host's pull loop over a cursor *)

Section PullLoop.

Variables (DataChunk : Type) (rows : ReadCSVRelation -> DataChunk).
Variables (sym i : string) (from to step : Z).
Hypothesis Hstep : 0 < step.
Hypothesis Hfrom : INT64_MIN <= from.
Hypothesis Hto : to + step <= INT64_MAX.

(** A collaborator that has rows for every window. *)
Let fetch (rel : ReadCSVRelation) : result (option DataChunk) :=
  Ok (Some (rows rel)).

(** With window [k] planned and [r] more windows below [to], the loop
    receives [r + 1] chunks, one per window, and the call after them
    returns without rows. *)
Lemma ScanLoop_cursor (r : nat) :
  forall (k fuel : nat),
    (S r < fuel)%nat ->
    from + Z.of_nat (S k + r) * step <= to
      < from + (Z.of_nat (S k + r) + 1) * step ->
    ScanLoop DataChunk fetch fuel
      (cursor sym i (Some (request (window_at sym i from step k)))
         from to step (S k)) =
    Ok (Some (map (fun j => rows (request (window_at sym i from step j)))
                (seq k (S r)),
              cursor sym i None from to step (S k + r))).
Proof.
  induction r as [| r IH]; intros k fuel Hfuel Hn;
    (destruct fuel as [| fuel]; [lia |]).
  - destruct fuel as [| fuel]; [lia |].
    rewrite Nat.add_0_r in *.
    cbn [ScanLoop]. unfold Scan at 1. cbn [plan cursor]. unfold fetch at 1.
    cbn [bind].
    change (GeneratePlan _) with
      (GeneratePlan (cursor sym i (Some (request (window_at sym i from step k)))
                       from to step (S k))).
    rewrite GeneratePlan_cursor_done by lia.
    cbn [bind]. unfold Scan. cbn [plan cursor set_plan bind option_map].
    reflexivity.
  - assert (Hk : from + (Z.of_nat (S k) + 1) * step <= to) by nia.
    cbn [ScanLoop]. unfold Scan at 1. cbn [plan cursor]. unfold fetch at 1.
    cbn [bind].
    change (GeneratePlan _) with
      (GeneratePlan (cursor sym i (Some (request (window_at sym i from step k)))
                       from to step (S k))).
    rewrite GeneratePlan_cursor_issue by assumption.
    cbn [bind].
    change (set_plan _ _) with
      (cursor sym i (Some (request (window_at sym i from step (S k))))
         from to step (S (S k))).
    rewrite (IH (S k) fuel)
      by (try lia; replace (S (S k) + r)%nat with (S k + S r)%nat by lia;
          exact Hn).
    cbn [bind option_map].
    replace (S (S k) + r)%nat with (S k + S r)%nat by lia.
    reflexivity.
Qed.

End PullLoop.

(** ** Claims on the windows of a request *)

Lemma window_count_pos (i : string) (from to : Z) :
  ValidInterval i = Ok tt -> valid_range from to ->
  (1 <= window_count from to i)%nat.
Proof.
  intros Hv Hr.
  pose proof (increment_bounds i from to Hv Hr) as Hs.
  destruct (window_count_spec i from to Hv Hr) as (Hn & _).
  pose proof (Z.div_le_lower_bound (to - from) (increment from to i) 1
                ltac:(lia) ltac:(lia)).
  lia.
Qed.

Lemma window_at_increasing (sym i : string) (from step : Z) (k : nat) :
  0 < step ->
  cursorFrom (window_at sym i from step k)
    < cursorFrom (window_at sym i from step (S k)) /\
  cursorTo (window_at sym i from step k)
    < cursorTo (window_at sym i from step (S k)).
Proof.
  intros Hs. unfold window_at. cbn [cursorFrom cursorTo].
  rewrite Nat2Z.inj_succ. split; nia.
Qed.

(** C5, as the code has it: for a valid request the step is strictly positive;
    [GeneratePlan] issues exactly [(to - from) / step] windows and then
    returns the null pointer, so any run with more calls than that reaches
    the end; the cursor bounds strictly increase from each issued window to
    the next; for ranges below 2^44 seconds the number of windows is the
    number the constructor divided the range into.  The host's pull loop,
    started from the bind data [Bind] stores and served rows for every
    window, receives one chunk per window and then the end of the
    stream. *)
Theorem PullNext_terminates (sym i : string) (from to : Z) :
  ValidInterval i = Ok tt ->
  valid_range from to ->
  exists d0 ws final,
    YahooFunctionData_new sym from to i = Ok d0 /\
    0 < increment_epoch d0 /\
    Z.of_nat (length ws) = (to - from) / increment_epoch d0 /\
    (forall fuel, (length ws < fuel)%nat ->
       PullAll fuel d0 = Some (ws, final)) /\
    GeneratePlan final = (None, final) /\
    (forall k w w',
       nth_error ws k = Some w -> nth_error ws (S k) = Some w' ->
       cursorFrom w < cursorFrom w' /\ cursorTo w < cursorTo w') /\
    (to - from < 2 ^ 44 ->
     Z.of_nat (length ws) =
     planned_windows (spec_expectedSamples from to (IntervalInEpoch i))) /\
    (forall (DataChunk : Type) (rows : ReadCSVRelation -> DataChunk) fuel,
       (S (length ws) < fuel)%nat ->
       ScanLoop DataChunk (fun rel => Ok (Some (rows rel))) fuel
         (set_plan (fst (GeneratePlan d0)) (snd (GeneratePlan d0))) =
       Ok (Some (map (fun w => rows (request w)) ws, set_plan None final))).
Proof.
  intros Hv Hr.
  pose proof (increment_bounds i from to Hv Hr) as Hs.
  destruct (window_count_spec i from to Hv Hr) as (Hn & Hlo & Hhi).
  pose proof (window_count_pos i from to Hv Hr) as Hpos.
  pose proof Hr as (Hmin & Hlt & Hmax).
  exists (cursor sym i None from to (increment from to i) 0).
  exists (map (window_at sym i from (increment from to i))
            (seq 0 (window_count from to i))).
  exists (cursor sym i None from to (increment from to i)
            (window_count from to i)).
  rewrite length_map, length_seq.
  split; [apply YahooFunctionData_new_cursor; assumption |].
  split; [exact (proj1 Hs) |].
  split; [exact Hn |].
  split; [intros fuel Hfuel; apply PullAll_valid; assumption |].
  split; [apply GeneratePlan_done; cbn [cursor to_epoch cur_to_epoch]; lia |].
  split; [| split].
  - intros k w w' Hw Hw'.
    apply nth_error_map_seq_inv in Hw, Hw'.
    destruct Hw as (_ & ->). destruct Hw' as (_ & ->).
    apply window_at_increasing. lia.
  - intros Hnear. apply window_count_near; assumption.
  - intros DataChunk rows fuel Hfuel.
    destruct (window_count from to i) as [| r] eqn:Hcount; [lia |].
    rewrite (GeneratePlan_cursor_issue sym i None from to (increment from to i)
               ltac:(lia) Hmin ltac:(lia) 0%nat) by nia.
    cbn [fst snd].
    change (set_plan _ (cursor sym i None from to (increment from to i) 1))
      with (cursor sym i
              (Some (request (window_at sym i from (increment from to i) 0)))
              from to (increment from to i) 1).
    rewrite (ScanLoop_cursor DataChunk rows sym i from to (increment from to i)
               ltac:(lia) Hmin ltac:(lia) r 0%nat fuel)
      by (try lia; simpl Nat.add; split; assumption).
    rewrite map_map. reflexivity.
Qed.

Lemma PullNext_terminates_witness :
  exists d0 ws final,
    YahooFunctionData_new "AAPL" 1704067200 1738627200 "1d" = Ok d0 /\
    PullAll 8 d0 = Some (ws, final) /\
    length ws = 7%nat /\
    Z.of_nat (length ws) =
      planned_windows
        (spec_expectedSamples 1704067200 1738627200 (IntervalInEpoch "1d")) /\
    ScanLoop string (fun rel => Ok (Some (csv_file rel))) 9
      (set_plan (fst (GeneratePlan d0)) (snd (GeneratePlan d0))) =
    Ok (Some (map (fun w => csv_file (request w)) ws, set_plan None final)).
Proof.
  assert (Hr : valid_range 1704067200 1738627200).
  { unfold valid_range, INT64_MIN, INT64_MAX. lia. }
  destruct (PullNext_terminates "AAPL" "1d" 1704067200 1738627200 eq_refl Hr)
    as (d0 & ws & final & Hnew & _ & Hlen & Hpull & _ & _ & Hplanned & Hloop).
  exists d0, ws, final.
  assert (Hl : length ws = 7%nat).
  { apply Nat2Z.inj. rewrite Hlen. injection Hnew as <-. reflexivity. }
  split; [exact Hnew |].
  split; [apply Hpull; rewrite Hl; repeat constructor |].
  split; [exact Hl |].
  split; [apply Hplanned; reflexivity |].
  apply Hloop. rewrite Hl. repeat constructor.
Defined.

Lemma ceil_div_60 (e : Z) : ceil_div e 60 <= e / 60 + 1 <= ceil_div e 60 + 1.
Proof.
  unfold ceil_div.
  pose proof (Z.mul_div_le (e + 60 - 1) 60 eq_refl).
  pose proof (Z.mul_succ_div_gt (e + 60 - 1) 60 eq_refl).
  pose proof (Z.mul_div_le e 60 eq_refl).
  pose proof (Z.mul_succ_div_gt e 60 eq_refl).
  lia.
Qed.

Lemma windows_cover (sym i : string) (from step : Z) (n : nat) :
  0 < step ->
  covers (map (window_at sym i from step) (seq 0 n))
    from (from + Z.of_nat n * step - 1).
Proof.
  intros Hs x Hx.
  pose proof (Z.div_pos (x - from) step ltac:(lia) Hs) as Hk0.
  pose proof (Z.mul_div_le (x - from) step Hs) as Hlo.
  pose proof (Z.mul_succ_div_gt (x - from) step Hs) as Hhi.
  exists (window_at sym i from step (Z.to_nat ((x - from) / step))).
  split.
  - apply in_map. apply in_seq. split; [lia |].
    apply Nat2Z.inj_lt. rewrite Z2Nat.id by exact Hk0. simpl Z.of_nat. nia.
  - unfold window_at. cbn [cursorFrom cursorTo].
    rewrite Z2Nat.id by exact Hk0. lia.
Qed.

(** C1, as the code has it: for a valid request of more than 60 samples
    over fewer than 2^44 seconds, [GeneratePlan] issues exactly
    [expectedSamples / 60 + 1] windows, which is the ceiling of
    [expectedSamples / 60] or one more; window [k] is
    [from + k * step, from + (k + 1) * step]: the first starts at
    [fromEpoch], each starts where the one before ends, none ends above
    [toEpoch], and together their half-open intervals cover every second
    from [fromEpoch] up to the end of the last window, which lies less
    than one step below [toEpoch] or on it.  The advance does not clamp the
    to bound: after the last window it is above [toEpoch], and that is what
    makes the next call return the null pointer. *)
Theorem windows_of_long_request (sym i : string) (from to : Z) :
  ValidInterval i = Ok tt ->
  valid_range from to ->
  to - from < 2 ^ 44 ->
  60 < spec_expectedSamples from to (IntervalInEpoch i) ->
  exists d0 ws final,
    YahooFunctionData_new sym from to i = Ok d0 /\
    (forall fuel, (length ws < fuel)%nat ->
       PullAll fuel d0 = Some (ws, final)) /\
    Z.of_nat (length ws) =
      spec_expectedSamples from to (IntervalInEpoch i) / 60 + 1 /\
    ceil_div (spec_expectedSamples from to (IntervalInEpoch i)) 60
      <= Z.of_nat (length ws)
      <= ceil_div (spec_expectedSamples from to (IntervalInEpoch i)) 60 + 1 /\
    (forall k w,
       nth_error ws k = Some w ->
       cursorFrom w = from + Z.of_nat k * increment_epoch d0 /\
       cursorTo w = cursorFrom w + increment_epoch d0 /\
       cursorTo w <= to) /\
    covers ws from (from + Z.of_nat (length ws) * increment_epoch d0 - 1) /\
    to - increment_epoch d0
      < from + Z.of_nat (length ws) * increment_epoch d0 <= to /\
    from_epoch final = from + Z.of_nat (length ws) * increment_epoch d0 /\
    cur_to_epoch final = from_epoch final + increment_epoch d0 /\
    to < cur_to_epoch final /\
    GeneratePlan final = (None, final).
Proof.
  intros Hv Hr Hnear H60.
  pose proof (increment_bounds i from to Hv Hr) as Hs.
  destruct (window_count_spec i from to Hv Hr) as (Hn & Hlo & Hhi).
  pose proof (window_count_near i from to Hv Hr Hnear) as Hcount.
  unfold planned_windows in Hcount.
  destruct (Z.ltb_spec 60 (spec_expectedSamples from to (IntervalInEpoch i)));
    [| lia].
  exists (cursor sym i None from to (increment from to i) 0).
  exists (map (window_at sym i from (increment from to i))
            (seq 0 (window_count from to i))).
  exists (cursor sym i None from to (increment from to i)
            (window_count from to i)).
  rewrite length_map, length_seq.
  cbn [cursor from_epoch cur_to_epoch increment_epoch].
  split; [apply YahooFunctionData_new_cursor; assumption |].
  split; [intros fuel Hfuel; apply PullAll_valid; assumption |].
  split; [exact Hcount |].
  split; [rewrite Hcount; apply ceil_div_60 |].
  split.
  { intros k w Hw. apply nth_error_map_seq_inv in Hw.
    destruct Hw as (Hk & ->). unfold window_at. cbn [cursorFrom cursorTo].
    repeat split; nia. }
  split; [apply windows_cover; lia |].
  split; [lia |].
  split; [reflexivity |].
  split; [lia |].
  split; [lia |].
  apply GeneratePlan_done. cbn [cursor to_epoch cur_to_epoch]. lia.
Qed.

Lemma windows_of_long_request_witness :
  exists d0 ws final,
    YahooFunctionData_new "AAPL" 1704067200 1738627200 "1d" = Ok d0 /\
    PullAll 8 d0 = Some (ws, final) /\
    length ws = 7%nat /\
    cur_to_epoch final = 1704067200 + 8 * 4937142.
Proof.
  assert (Hr : valid_range 1704067200 1738627200).
  { unfold valid_range, INT64_MIN, INT64_MAX. lia. }
  destruct (windows_of_long_request "AAPL" "1d" 1704067200 1738627200
              eq_refl Hr eq_refl eq_refl)
    as (d0 & ws & final & Hnew & Hpull & Hlen & _ & _ & _ & _ & Hf & Hc & _).
  exists d0, ws, final.
  injection Hnew as <-.
  assert (Hl : length ws = 7%nat).
  { apply Nat2Z.inj. rewrite Hlen. reflexivity. }
  split; [reflexivity |].
  split; [apply Hpull; rewrite Hl; repeat constructor |].
  split; [exact Hl |].
  rewrite Hc, Hf, Hl. reflexivity.
Defined.

(** C1 as the spec states it fails on the 360-day request 2024-01-01 to
    2024-12-26 at interval 1d (361 samples, step 4443428): the seven
    windows end 4 seconds below [toEpoch], so they do not cover the range;
    the cursor left behind still starts at or below [toEpoch], its to bound
    has not been clamped to [toEpoch], and no further window is issued. *)
Lemma windows_leave_tail_uncovered :
  exists d0 ws final,
    ValidInterval "1d" = Ok tt /\
    valid_range 1704067200 1735171200 /\
    60 < spec_expectedSamples 1704067200 1735171200 (IntervalInEpoch "1d") /\
    YahooFunctionData_new "AAPL" 1704067200 1735171200 "1d" = Ok d0 /\
    PullAll 8 d0 = Some (ws, final) /\
    ~ covers ws 1704067200 1735171200 /\
    (forall w, In w ws -> cursorTo w <= 1735171200 - 4) /\
    from_epoch final = 1735171200 - 4 /\
    cur_to_epoch final = 1735171200 - 4 + 4443428 /\
    cur_to_epoch final <> Z.min (cur_to_epoch final) 1735171200 /\
    GeneratePlan final = (None, final).
Proof.
  eexists. eexists. eexists.
  split; [reflexivity |].
  split; [unfold valid_range, INT64_MIN, INT64_MAX; lia |].
  split; [reflexivity |].
  split; [reflexivity |].
  split; [vm_compute; reflexivity |].
  assert (Hall : forall w,
             In w (map (window_at "AAPL" "1d" 1704067200 4443428) (seq 0 7)) ->
             cursorTo w <= 1735171200 - 4).
  { intros w Hin. apply in_map_iff in Hin. destruct Hin as (k & <- & Hk).
    apply in_seq in Hk. unfold window_at. cbn [cursorTo]. lia. }
  split; [| split; [exact Hall | repeat split; vm_compute; congruence]].
  intros Hcov.
  destruct (Hcov (1735171200 - 1) ltac:(lia)) as (w & Hin & Hw).
  apply Hall in Hin. lia.
Qed.

(** C4, as the code has it: for a valid request whose sample count
    [(to - from) / intervalSeconds + 1] fits the 32-bit [int] that stores
    it, the constructor computes that count; above 60 it sets the step to
    [(to - from) / (count / 60 + 1)], otherwise to [to - from]; the first
    window is [from, min (from + step, to)].  With at most 60 samples
    exactly one window, [from, to], is issued: the second [GeneratePlan]
    returns the null pointer, and the pull loop gets one chunk and then the
    end of the stream. *)
Theorem constructor_windowing (sym i : string) (from to : Z) :
  ValidInterval i = Ok tt ->
  valid_range from to ->
  spec_expectedSamples from to (IntervalInEpoch i) <= INT_MAX ->
  exists d0,
    expected_tuples_of from to (IntervalInEpoch i) =
      Ok ((to - from) / IntervalInEpoch i + 1) /\
    YahooFunctionData_new sym from to i = Ok d0 /\
    (60 < (to - from) / IntervalInEpoch i + 1 ->
     increment_epoch d0 =
       (to - from) / (((to - from) / IntervalInEpoch i + 1) / 60 + 1)) /\
    (from_epoch d0 = from /\
     cur_to_epoch d0 = Z.min (from + increment_epoch d0) to /\
     to_epoch d0 = to) /\
    ((to - from) / IntervalInEpoch i + 1 <= 60 ->
     increment_epoch d0 = to - from /\
     exists rel d1,
       GeneratePlan d0 = (Some rel, d1) /\
       GeneratePlan d1 = (None, d1) /\
       (forall fuel, (1 < fuel)%nat ->
          PullAll fuel d0 =
          Some ([{| cursorFrom := from; cursorTo := to; request := rel |}], d1)) /\
       (forall (DataChunk : Type) (rows : ReadCSVRelation -> DataChunk) fuel,
          (2 < fuel)%nat ->
          ScanLoop DataChunk (fun r => Ok (Some (rows r))) fuel
            (set_plan (Some rel) d1) =
          Ok (Some ([rows rel], set_plan None d1)))).
Proof.
  intros Hv Hr Hint.
  pose proof (IntervalInEpoch_bounds i Hv) as HI.
  destruct (range_facts from to Hr) as (HD & HDr & _).
  pose proof (Z.div_pos (to - from) (IntervalInEpoch i) ltac:(lia) ltac:(lia))
    as Hq.
  assert (He : expected_tuples from to i =
               (to - from) / IntervalInEpoch i + 1).
  { unfold expected_tuples. apply wrap32_small.
    unfold spec_expectedSamples, in_int, INT_MIN, INT_MAX in *. lia. }
  pose proof (increment_bounds i from to Hv Hr) as Hs.
  pose proof Hr as (Hmin & Hlt & Hmax).
  exists (cursor sym i None from to (increment from to i) 0).
  cbn [cursor from_epoch cur_to_epoch to_epoch increment_epoch].
  split.
  { rewrite (expected_tuples_of_valid i from to Hv Hr).
    fold (expected_tuples from to i). rewrite He. reflexivity. }
  split; [apply YahooFunctionData_new_cursor; assumption |].
  split.
  { intros H60. unfold increment, spec_stepSize. rewrite He.
    destruct (Z.ltb_spec 60 ((to - from) / IntervalInEpoch i + 1));
      [reflexivity | lia]. }
  split; [repeat split; lia |].
  intros H60.
  assert (Hinc : increment from to i = to - from).
  { unfold increment, spec_stepSize. rewrite He.
    destruct (Z.ltb_spec 60 ((to - from) / IntervalInEpoch i + 1));
      [lia | reflexivity]. }
  split; [exact Hinc |].
  pose proof (window_count_short i from to Hr ltac:(lia)) as Hone.
  exists (request (window_at sym i from (increment from to i) 0)).
  exists (cursor sym i None from to (increment from to i) 1).
  split.
  { apply (GeneratePlan_cursor_issue sym i None from to (increment from to i)
             ltac:(lia) Hmin ltac:(lia) 0%nat).
    simpl Z.of_nat. lia. }
  split.
  { apply GeneratePlan_done. cbn [cursor to_epoch cur_to_epoch].
    simpl Z.of_nat. lia. }
  split.
  { intros fuel Hfuel.
    rewrite (PullAll_valid sym i from to Hv Hr fuel) by lia.
    rewrite Hone. cbn [seq map].
    assert (Hw : window_at sym i from (increment from to i) 0 =
                 {| cursorFrom := from; cursorTo := to;
                    request :=
                      request (window_at sym i from (increment from to i) 0) |}).
    { unfold window_at. cbn [request]. f_equal; lia. }
    rewrite Hw at 1. reflexivity. }
  intros DataChunk rows fuel Hfuel.
  change (set_plan (Some (request (window_at sym i from (increment from to i) 0)))
            (cursor sym i None from to (increment from to i) 1))
    with (cursor sym i
            (Some (request (window_at sym i from (increment from to i) 0)))
            from to (increment from to i) 1).
  rewrite (ScanLoop_cursor DataChunk rows sym i from to (increment from to i)
             ltac:(lia) Hmin ltac:(lia) 0%nat 0%nat fuel)
    by (try lia; simpl Z.of_nat; lia).
  reflexivity.
Qed.

Lemma constructor_windowing_witness :
  (exists d0 rel d1,
     YahooFunctionData_new "AAPL" 1704067200 1704844800 "1d" = Ok d0 /\
     expected_tuples_of 1704067200 1704844800 (IntervalInEpoch "1d") = Ok 10 /\
     increment_epoch d0 = 777600 /\
     GeneratePlan d0 = (Some rel, d1) /\
     GeneratePlan d1 = (None, d1)) /\
  (exists d0,
     YahooFunctionData_new "AAPL" 1704067200 1738627200 "1d" = Ok d0 /\
     expected_tuples_of 1704067200 1738627200 (IntervalInEpoch "1d") = Ok 401 /\
     increment_epoch d0 = 4937142).
Proof.
  split.
  - assert (Hr : valid_range 1704067200 1704844800).
    { unfold valid_range, INT64_MIN, INT64_MAX. lia. }
    assert (Hint : spec_expectedSamples 1704067200 1704844800
                     (IntervalInEpoch "1d") <= INT_MAX).
    { vm_compute. discriminate. }
    destruct (constructor_windowing "AAPL" "1d" 1704067200 1704844800
                eq_refl Hr Hint)
      as (d0 & He & Hnew & _ & _ & Hshort).
    destruct (Hshort ltac:(vm_compute; discriminate))
      as (Hinc & rel & d1 & Hg0 & Hg1 & _).
    exists d0, rel, d1.
    split; [exact Hnew |].
    split; [exact He |].
    split; [exact Hinc |].
    split; assumption.
  - assert (Hr : valid_range 1704067200 1738627200).
    { unfold valid_range, INT64_MIN, INT64_MAX. lia. }
    assert (Hint : spec_expectedSamples 1704067200 1738627200
                     (IntervalInEpoch "1d") <= INT_MAX).
    { vm_compute. discriminate. }
    destruct (constructor_windowing "AAPL" "1d" 1704067200 1738627200
                eq_refl Hr Hint)
      as (d0 & He & Hnew & Hlong & _).
    exists d0.
    split; [exact Hnew |].
    split; [exact He |].
    exact (Hlong eq_refl).
Defined.

(** C4 as the spec states it fails where the sample count does not fit an
    [int]: between the dates -2^30 and 2^30 (in days) at interval 1d the
    range has 2^31 + 1 samples, the constructor stores -2^31 + 1, takes the
    branch for at most 60 samples and makes the whole range one step. *)
Lemma constructor_truncates_sample_count :
  exists d0,
    ValidInterval "1d" = Ok tt /\
    valid_range (days_epoch (- 2 ^ 30)) (days_epoch (2 ^ 30)) /\
    60 < spec_expectedSamples (days_epoch (- 2 ^ 30)) (days_epoch (2 ^ 30))
           (IntervalInEpoch "1d") /\
    YahooFunctionData_new "AAPL" (days_epoch (- 2 ^ 30)) (days_epoch (2 ^ 30))
      "1d" = Ok d0 /\
    expected_tuples_of (days_epoch (- 2 ^ 30)) (days_epoch (2 ^ 30))
      (IntervalInEpoch "1d") = Ok (- 2 ^ 31 + 1) /\
    spec_expectedSamples (days_epoch (- 2 ^ 30)) (days_epoch (2 ^ 30))
      (IntervalInEpoch "1d") = 2 ^ 31 + 1 /\
    increment_epoch d0 = days_epoch (2 ^ 30) - days_epoch (- 2 ^ 30) /\
    increment_epoch d0 <>
      spec_stepSize (days_epoch (- 2 ^ 30)) (days_epoch (2 ^ 30))
        (spec_expectedSamples (days_epoch (- 2 ^ 30)) (days_epoch (2 ^ 30))
           (IntervalInEpoch "1d")).
Proof.
  eexists.
  split; [reflexivity |].
  split; [vm_compute; repeat split; discriminate |].
  split; [reflexivity |].
  split; [vm_compute; reflexivity |].
  repeat split; vm_compute; congruence.
Qed.

(** Beyond 2^44 seconds the number of windows can exceed the ceiling of
    [expectedSamples / 60] by two: over 314021819 days at interval 1d the
    range has 314021820 samples, whose sixtieth is 5233697, and the step
    5183998 goes 5233699 times into the range. *)
Lemma far_range_window_count :
  valid_range 0 (days_epoch 314021819) /\
  spec_expectedSamples 0 (days_epoch 314021819) (IntervalInEpoch "1d")
    = 314021820 /\
  expected_tuples 0 (days_epoch 314021819) "1d" = 314021820 /\
  ceil_div 314021820 60 = 5233697 /\
  increment 0 (days_epoch 314021819) "1d" = 5183998 /\
  Z.of_nat (window_count 0 (days_epoch 314021819) "1d") = 5233699.
Proof.
  assert (Hr : valid_range 0 (days_epoch 314021819))
    by (vm_compute; repeat split; discriminate).
  split; [exact Hr |].
  do 4 (split; [vm_compute; reflexivity |]).
  rewrite (proj1 (window_count_spec "1d" 0 (days_epoch 314021819) eq_refl Hr)).
  vm_compute. reflexivity.
Qed.

(** ** Further properties: the calendar and the constructor *)

Lemma IntervalInEpoch_invalid (s : string) :
  ValidInterval s <> Ok tt -> IntervalInEpoch s = 0.
Proof.
  unfold ValidInterval, find_interval, valid_interval, IntervalInEpoch. simpl.
  destruct (String.eqb s "1d"); [simpl; congruence |].
  destruct (String.eqb s "5d"); [simpl; congruence |].
  destruct (String.eqb s "1wk"); [simpl; congruence |].
  destruct (String.eqb s "1mo"); [simpl; congruence |].
  destruct (String.eqb s "3mo"); [simpl; congruence |].
  reflexivity.
Qed.

(** X1: the set [ValidInterval] accepts and the labels [IntervalInEpoch]
    knows are the same set: a label passes validation exactly when its
    duration is not zero, and then the duration is a whole number of days,
    between 1 and 90. *)
Theorem validation_agrees_with_duration (s : string) :
  (ValidInterval s = Ok tt <-> IntervalInEpoch s <> 0) /\
  (ValidInterval s = Ok tt ->
   exists days, 1 <= days <= 90 /\ IntervalInEpoch s = days * SECS_PER_DAY).
Proof.
  split; [split |].
  - intros Hv. pose proof (IntervalInEpoch_bounds s Hv). lia.
  - intros Hnz. destruct (ValidInterval s) as [[] | e |] eqn:Hv;
      [reflexivity | |];
      exfalso; apply Hnz; apply IntervalInEpoch_invalid; congruence.
  - intros Hv.
    destruct (ValidInterval_cases s Hv) as [-> | [-> | [-> | [-> | ->]]]];
      [exists 1 | exists 5 | exists 7 | exists 30 | exists 90];
      split; try lia; reflexivity.
Qed.

Lemma validation_agrees_with_duration_witness :
  ValidInterval "1mo" = Ok tt /\
  exists days, 1 <= days <= 90 /\ IntervalInEpoch "1mo" = days * SECS_PER_DAY.
Proof.
  destruct (validation_agrees_with_duration "1mo") as (Hiff & Hdays).
  assert (Hv : ValidInterval "1mo" = Ok tt).
  { apply Hiff. vm_compute. discriminate. }
  split; [exact Hv | exact (Hdays Hv)].
Defined.

Lemma increment_of_defined (from to e : Z) :
  in_int e -> exists inc, increment_of from to e = Ok inc.
Proof.
  intros He. unfold increment_of, div64.
  destruct (Z.ltb_spec 60 e) as [H60 | H60]; [| eexists; reflexivity].
  rewrite Z.quot_div_nonneg by lia.
  pose proof (Z.mul_div_le e 60 eq_refl).
  pose proof (Z.div_pos e 60 ltac:(lia) eq_refl).
  unfold add32. rewrite wrap32_small
    by (unfold in_int, INT_MIN, INT_MAX in *; lia).
  destruct (Z.eqb_spec (e / 60 + 1) 0); [lia |].
  eexists; reflexivity.
Qed.

Lemma YahooFunctionData_new_defined (sym i : string) (from to : Z) :
  ValidInterval i = Ok tt ->
  exists d, YahooFunctionData_new sym from to i = Ok d.
Proof.
  intros Hv. pose proof (IntervalInEpoch_bounds i Hv) as HI.
  unfold YahooFunctionData_new, expected_tuples_of, div64.
  destruct (Z.eqb_spec (IntervalInEpoch i) 0); [lia |].
  cbn [bind].
  destruct (increment_of_defined from to
              (wrap32 (add64 (wrap64 (Z.quot (sub64 to from) (IntervalInEpoch i))) 1))
              (wrap32_range _)) as (inc & ->).
  cbn [bind]. eexists; reflexivity.
Qed.

(** X2: the constructor has a result exactly for the labels [ValidInterval]
    accepts; for every other label, whatever the symbol and the epochs, its
    first division has a zero divisor. *)
Theorem constructor_defined_iff_valid (sym i : string) (from to : Z) :
  ((exists d, YahooFunctionData_new sym from to i = Ok d) <->
   ValidInterval i = Ok tt) /\
  (ValidInterval i <> Ok tt ->
   YahooFunctionData_new sym from to i = Undefined).
Proof.
  assert (Hbad : ValidInterval i <> Ok tt ->
                 YahooFunctionData_new sym from to i = Undefined).
  { intros Hv. unfold YahooFunctionData_new, expected_tuples_of, div64.
    rewrite (IntervalInEpoch_invalid i Hv). reflexivity. }
  split; [split | exact Hbad].
  - intros (d & Hd).
    destruct (ValidInterval i) as [[] | e |] eqn:Hv; [reflexivity | |];
      rewrite Hbad in Hd by congruence; discriminate.
  - apply YahooFunctionData_new_defined.
Qed.

Lemma constructor_defined_iff_valid_witness :
  YahooFunctionData_new "AAPL" 1704067200 1704844800 "2d" = Undefined /\
  YahooFunctionData_new "AAPL" 1704067200 1704844800 "" = Undefined.
Proof.
  split.
  - apply (proj2 (constructor_defined_iff_valid
                    "AAPL" "2d" 1704067200 1704844800)).
    discriminate.
  - apply (proj2 (constructor_defined_iff_valid
                    "AAPL" "" 1704067200 1704844800)).
    discriminate.
Defined.

Lemma YahooFunctionData_new_shape (sym i : string) (from to : Z)
  (d : YahooFunctionData) :
  YahooFunctionData_new sym from to i = Ok d ->
  plan d = None /\ symbol d = sym /\ interval d = i /\
  from_epoch d = from /\ to_epoch d = to /\ cur_to_epoch d <= to.
Proof.
  unfold YahooFunctionData_new.
  destruct (expected_tuples_of from to (IntervalInEpoch i)) as [e | |];
    cbn [bind]; try discriminate.
  destruct (increment_of from to e) as [inc | |]; cbn [bind]; try discriminate.
  intros [= <-]. cbn [plan symbol interval from_epoch to_epoch cur_to_epoch].
  repeat split.
  destruct (Z.ltb_spec (add64 from inc) to); lia.
Qed.

(** X3: whatever the arguments (also where the 64-bit arithmetic wraps),
    bind data the constructor returns has a first window that ends at or
    below [to_epoch]; so the call of [GeneratePlan] that follows never
    returns the null pointer: it requests the window from [from_epoch] to
    the clamped [cur_to_epoch]. *)
Theorem constructor_first_window_is_issued
  (sym i : string) (from to : Z) (d : YahooFunctionData) :
  YahooFunctionData_new sym from to i = Ok d ->
  cur_to_epoch d <= to_epoch d /\
  from_epoch d = from /\ to_epoch d = to /\
  exists rel d',
    GeneratePlan d = (Some rel, d') /\
    csv_file rel =
      request_url sym (to_string from) (to_string (cur_to_epoch d)) i.
Proof.
  intros Hnew.
  destruct (YahooFunctionData_new_shape sym i from to d Hnew)
    as (_ & Hsym & Hint & Hfrom & Hto & Hclamp).
  split; [lia |]. split; [exact Hfrom |]. split; [exact Hto |].
  eexists. eexists. split.
  - apply GeneratePlan_issue. lia.
  - cbn [csv_file csv_rel]. rewrite Hsym, Hint, Hfrom. reflexivity.
Qed.

Lemma constructor_first_window_is_issued_witness :
  exists rel d',
    GeneratePlan sample_cursor = (Some rel, d') /\
    csv_file rel =
      request_url "AAPL" (to_string 1704067200) (to_string 1704844800) "1d".
Proof.
  destruct (constructor_first_window_is_issued
              "AAPL" "1d" 1704067200 1704844800 sample_cursor eq_refl)
    as (_ & _ & _ & rel & d' & Hgen & Hurl).
  exists rel, d'. split; [exact Hgen | exact Hurl].
Defined.

(** ** Further properties: binding *)

Lemma check_period_type_Ok (v : Value) :
  check_period_type v = Ok tt <->
  Value_type v = VARCHAR \/ Value_type v = DATE.
Proof.
  unfold check_period_type.
  destruct v; simpl; split; intros H; try reflexivity; try discriminate;
    try tauto; destruct H; discriminate.
Qed.

Lemma check_period_type_throws (v : Value) :
  check_period_type v <> Ok tt ->
  check_period_type v =
  Throw (InvalidInputException "Start Period must be a Date or a Date-VARCHAR ").
Proof.
  unfold check_period_type.
  destruct (negb (LogicalType_eqb (Value_type v) VARCHAR) &&
            negb (LogicalType_eqb (Value_type v) DATE)); congruence.
Qed.

(** X4: a period argument (start or end) whose type is neither VARCHAR nor
    DATE makes [Bind] throw the message about the start period, whatever the
    symbol and the interval, valid or not; and with period arguments of an
    accepted type, a conversion to a date that throws makes [Bind] leave
    with that exception, again before the interval is looked at. *)
Theorem Bind_period_errors
  (CastToDate : string -> result date_t) (Date_Epoch : date_t -> Z)
  (input : TableFunctionBindInput)
  (return_types_p : list LogicalType) (names_p : list string) :
  ((Value_type (input_from input) <> VARCHAR /\
    Value_type (input_from input) <> DATE) \/
   (Value_type (input_to input) <> VARCHAR /\
    Value_type (input_to input) <> DATE) ->
   Bind CastToDate Date_Epoch input return_types_p names_p =
   Throw (InvalidInputException
            "Start Period must be a Date or a Date-VARCHAR ")) /\
  (forall e,
     check_period_type (input_from input) = Ok tt ->
     check_period_type (input_to input) = Ok tt ->
     GetValue_date CastToDate (input_from input) = Throw e \/
     ((exists from_date,
         GetValue_date CastToDate (input_from input) = Ok from_date) /\
      GetValue_date CastToDate (input_to input) = Throw e) ->
     Bind CastToDate Date_Epoch input return_types_p names_p = Throw e).
Proof.
  split.
  - intros Hbad. unfold Bind.
    destruct (check_period_type (input_from input)) as [[] | e |] eqn:Hf.
    + cbn [bind].
      destruct Hbad as [Hbad | Hbad];
        [apply check_period_type_Ok in Hf; tauto |].
      rewrite check_period_type_throws; [reflexivity |].
      rewrite check_period_type_Ok. tauto.
    + rewrite check_period_type_throws in Hf by congruence.
      injection Hf as <-. reflexivity.
    + rewrite check_period_type_throws in Hf by congruence. discriminate.
  - intros e Hf Ht Hcast. unfold Bind. rewrite Hf, Ht. cbn [bind].
    destruct Hcast as [-> | ((from_date & ->) & ->)]; reflexivity.
Qed.

Lemma Bind_period_errors_witness :
  Bind no_cast days_epoch
    {| input_symbol := "AAPL"; input_from := DateValue 19723;
       input_to := IntegerValue 19732; input_interval := "2d" |} [] [] =
  Throw (InvalidInputException
           "Start Period must be a Date or a Date-VARCHAR ") /\
  Bind no_cast days_epoch
    {| input_symbol := "AAPL"; input_from := DateValue 19723;
       input_to := VarcharValue "tomorrow"; input_interval := "2d" |} [] [] =
  Throw (OtherException "conversion").
Proof.
  split.
  - apply (proj1 (Bind_period_errors no_cast days_epoch
                    {| input_symbol := "AAPL"; input_from := DateValue 19723;
                       input_to := IntegerValue 19732;
                       input_interval := "2d" |} [] [])).
    right. split; discriminate.
  - apply (proj2 (Bind_period_errors no_cast days_epoch
                    {| input_symbol := "AAPL"; input_from := DateValue 19723;
                       input_to := VarcharValue "tomorrow";
                       input_interval := "2d" |} [] [])
             (OtherException "conversion") eq_refl eq_refl).
    right. split; [exists 19723; reflexivity | reflexivity].
Defined.

(** X5: [Bind] returns bind data exactly when both period arguments have an
    accepted type and convert to dates, the interval is valid and the end
    date is after the start date; no condition on the epochs of the dates is
    needed, the stored plan is never null.  It then appends to the vectors
    the host passes the seven column types and the seven column names, in
    the order of the columns, and stores the plan of the constructor's first
    window together with the cursor advanced by one step. *)
Theorem Bind_succeeds_with_schema
  (CastToDate : string -> result date_t) (Date_Epoch : date_t -> Z)
  (input : TableFunctionBindInput)
  (return_types_p : list LogicalType) (names_p : list string) :
  ((exists out,
      Bind CastToDate Date_Epoch input return_types_p names_p = Ok out) <->
   (check_period_type (input_from input) = Ok tt /\
    check_period_type (input_to input) = Ok tt /\
    exists from_date to_date,
      GetValue_date CastToDate (input_from input) = Ok from_date /\
      GetValue_date CastToDate (input_to input) = Ok to_date /\
      ValidInterval (input_interval input) = Ok tt /\
      from_date < to_date)) /\
  (forall out,
     Bind CastToDate Date_Epoch input return_types_p names_p = Ok out ->
     return_types out =
       (return_types_p ++
        [DATE; DOUBLE; DOUBLE; DOUBLE; DOUBLE; DOUBLE; HUGEINT])%list /\
     names out =
       (names_p ++
        ["Date"; "Open"; "High"; "Low"; "Close"; "Adj Close"; "Volume"])%list /\
     exists from_date to_date d0 rel,
       GetValue_date CastToDate (input_from input) = Ok from_date /\
       GetValue_date CastToDate (input_to input) = Ok to_date /\
       YahooFunctionData_new (input_symbol input) (Date_Epoch from_date)
         (Date_Epoch to_date) (input_interval input) = Ok d0 /\
       csv_file rel =
         request_url (input_symbol input) (to_string (Date_Epoch from_date))
           (to_string (cur_to_epoch d0)) (input_interval input) /\
       cur_to_epoch d0 <= Date_Epoch to_date /\
       bind_data out = set_plan (Some rel) (advance d0)).
Proof.
  assert (Hok : forall from_date to_date,
             check_period_type (input_from input) = Ok tt ->
             check_period_type (input_to input) = Ok tt ->
             GetValue_date CastToDate (input_from input) = Ok from_date ->
             GetValue_date CastToDate (input_to input) = Ok to_date ->
             ValidInterval (input_interval input) = Ok tt ->
             from_date < to_date ->
             exists d0,
               YahooFunctionData_new (input_symbol input) (Date_Epoch from_date)
                 (Date_Epoch to_date) (input_interval input) = Ok d0 /\
               cur_to_epoch d0 <= Date_Epoch to_date /\
               Bind CastToDate Date_Epoch input return_types_p names_p =
               Ok {| bind_data :=
                       set_plan
                         (Some (csv_rel
                                  (request_url (input_symbol input)
                                     (to_string (Date_Epoch from_date))
                                     (to_string (cur_to_epoch d0))
                                     (input_interval input))))
                         (advance d0);
                     return_types :=
                       (return_types_p ++ map Type_ column_def)%list;
                     names := (names_p ++ map Name column_def)%list |}).
  { intros from_date to_date Hf Ht Hfd Htd Hv Hlt.
    destruct (YahooFunctionData_new_defined (input_symbol input)
                (input_interval input) (Date_Epoch from_date)
                (Date_Epoch to_date) Hv) as (d0 & Hnew).
    destruct (YahooFunctionData_new_shape _ _ _ _ d0 Hnew)
      as (_ & Hsym & Hint & Hfrom & Hto & Hclamp).
    exists d0. split; [exact Hnew |]. split; [exact Hclamp |].
    unfold Bind. rewrite Hf, Ht, Hfd, Htd, Hv. cbn [bind].
    destruct (Z.leb_spec to_date from_date); [lia |].
    rewrite Hnew. cbn [bind].
    rewrite GeneratePlan_issue by lia.
    rewrite Hsym, Hint, Hfrom. reflexivity. }
  assert (Hinv : forall out,
             Bind CastToDate Date_Epoch input return_types_p names_p = Ok out ->
             check_period_type (input_from input) = Ok tt /\
             check_period_type (input_to input) = Ok tt /\
             exists from_date to_date,
               GetValue_date CastToDate (input_from input) = Ok from_date /\
               GetValue_date CastToDate (input_to input) = Ok to_date /\
               ValidInterval (input_interval input) = Ok tt /\
               from_date < to_date).
  { intros out. unfold Bind.
    destruct (check_period_type (input_from input)) as [[] | |];
      cbn [bind]; try discriminate.
    destruct (check_period_type (input_to input)) as [[] | |];
      cbn [bind]; try discriminate.
    destruct (GetValue_date CastToDate (input_from input)) as [from_date | |];
      cbn [bind]; try discriminate.
    destruct (GetValue_date CastToDate (input_to input)) as [to_date | |];
      cbn [bind]; try discriminate.
    destruct (ValidInterval (input_interval input)) as [[] | |];
      cbn [bind]; try discriminate.
    destruct (Z.leb_spec to_date from_date); [discriminate |].
    intros _. repeat split. exists from_date, to_date. repeat split. lia. }
  split; [split |].
  - intros (out & Hout). exact (Hinv out Hout).
  - intros (Hf & Ht & from_date & to_date & Hfd & Htd & Hv & Hlt).
    destruct (Hok from_date to_date Hf Ht Hfd Htd Hv Hlt) as (d0 & _ & _ & Hb).
    eexists. exact Hb.
  - intros out Hout.
    destruct (Hinv out Hout)
      as (Hf & Ht & from_date & to_date & Hfd & Htd & Hv & Hlt).
    destruct (Hok from_date to_date Hf Ht Hfd Htd Hv Hlt)
      as (d0 & Hnew & Hclamp & Hb).
    rewrite Hb in Hout. injection Hout as <-.
    cbn [return_types names bind_data].
    split; [reflexivity |]. split; [reflexivity |].
    exists from_date, to_date, d0.
    eexists. repeat split; try eassumption; reflexivity.
Qed.

Lemma Bind_succeeds_with_schema_witness :
  exists out,
    Bind no_cast days_epoch
      {| input_symbol := "AAPL"; input_from := DateValue 19723;
         input_to := DateValue 19732; input_interval := "1d" |}
      [VARCHAR] ["symbol"] = Ok out /\
    return_types out =
      [VARCHAR; DATE; DOUBLE; DOUBLE; DOUBLE; DOUBLE; DOUBLE; HUGEINT] /\
    names out =
      ["symbol"; "Date"; "Open"; "High"; "Low"; "Close"; "Adj Close"; "Volume"].
Proof.
  destruct (Bind_succeeds_with_schema no_cast days_epoch
              {| input_symbol := "AAPL"; input_from := DateValue 19723;
                 input_to := DateValue 19732; input_interval := "1d" |}
              [VARCHAR] ["symbol"]) as (Hiff & Hschema).
  destruct (proj2 Hiff) as (out & Hout).
  { split; [reflexivity |]. split; [reflexivity |].
    exists 19723, 19732. repeat split. }
  exists out. split; [exact Hout |].
  destruct (Hschema out Hout) as (Hrt & Hnm & _).
  split; assumption.
Defined.

(** ** Further properties: the size and the tiling of the windows *)

(** X6: while the sample count fits the [int] that stores it, a window is
    shorter than 60 intervals, so that it holds at most 60 samples; when
    the range is split (more than 60 samples) a window is also at least 30
    intervals long. *)
Theorem window_sample_budget (sym i : string) (from to : Z) :
  ValidInterval i = Ok tt ->
  valid_range from to ->
  spec_expectedSamples from to (IntervalInEpoch i) <= INT_MAX ->
  exists d0,
    YahooFunctionData_new sym from to i = Ok d0 /\
    increment_epoch d0 < 60 * IntervalInEpoch i /\
    increment_epoch d0 / IntervalInEpoch i + 1 <= 60 /\
    (60 < spec_expectedSamples from to (IntervalInEpoch i) ->
     30 * IntervalInEpoch i <= increment_epoch d0).
Proof.
  intros Hv Hr Hint.
  pose proof (IntervalInEpoch_bounds i Hv) as HI.
  destruct (range_facts from to Hr) as (HD & _).
  pose proof (Z.div_pos (to - from) (IntervalInEpoch i) ltac:(lia) ltac:(lia))
    as Hq.
  pose proof (Z.mul_div_le (to - from) (IntervalInEpoch i) ltac:(lia)) as Hlo.
  pose proof (Z.mul_succ_div_gt (to - from) (IntervalInEpoch i) ltac:(lia))
    as Hhi.
  assert (He : expected_tuples from to i =
               (to - from) / IntervalInEpoch i + 1).
  { unfold expected_tuples. apply wrap32_small.
    unfold spec_expectedSamples, in_int, INT_MIN, INT_MAX in *. lia. }
  exists (cursor sym i None from to (increment from to i) 0).
  split; [apply YahooFunctionData_new_cursor; assumption |].
  cbn [cursor increment_epoch].
  assert (Hbudget : increment from to i < 60 * IntervalInEpoch i /\
                    (60 < spec_expectedSamples from to (IntervalInEpoch i) ->
                     30 * IntervalInEpoch i <= increment from to i)).
  { unfold increment, spec_stepSize, spec_expectedSamples. rewrite He.
    remember ((to - from) / IntervalInEpoch i) as q eqn:Hqdef.
    destruct (Z.ltb_spec 60 (q + 1)) as [H60 | H60].
    - pose proof (Z.mul_div_le (q + 1) 60 eq_refl) as Hm1.
      pose proof (Z.mul_succ_div_gt (q + 1) 60 eq_refl) as Hm2.
      remember ((q + 1) / 60 + 1) as m eqn:Hmdef.
      assert (Hm : 2 <= m).
      { pose proof (Z.div_le_lower_bound (q + 1) 60 1 eq_refl ltac:(lia)). lia. }
      split.
      + apply Z.div_lt_upper_bound; [lia |]. nia.
      + intros _. apply Z.div_le_lower_bound; [lia |].
        assert (30 * m <= q) by lia. nia.
    - split; [nia | lia]. }
  destruct Hbudget as (Hlt & Hge).
  split; [exact Hlt |]. split; [| exact Hge].
  pose proof (Z.div_lt_upper_bound (increment from to i) (IntervalInEpoch i) 60
                ltac:(lia) ltac:(lia)).
  lia.
Qed.

Lemma window_sample_budget_witness :
  exists d0,
    YahooFunctionData_new "AAPL" 1704067200 1738627200 "1d" = Ok d0 /\
    30 * 86400 <= increment_epoch d0 < 60 * 86400.
Proof.
  assert (Hr : valid_range 1704067200 1738627200).
  { unfold valid_range, INT64_MIN, INT64_MAX. lia. }
  assert (Hint : spec_expectedSamples 1704067200 1738627200
                   (IntervalInEpoch "1d") <= INT_MAX).
  { vm_compute. discriminate. }
  destruct (window_sample_budget "AAPL" "1d" 1704067200 1738627200
              eq_refl Hr Hint) as (d0 & Hnew & Hlt & _ & Hge).
  exists d0. split; [exact Hnew |].
  split; [exact (Hge eq_refl) | exact Hlt].
Defined.

(** X7: for every valid request, of any length, the windows issued are the
    consecutive steps [from + k * step, from + (k + 1) * step], at least
    one; what they leave between the end of the last window and [to_epoch]
    is the remainder of the range by the step.  A range of at most 60
    samples leaves nothing; a range of more than 60 samples over fewer than
    2^44 seconds leaves the remainder of the range by the number of windows,
    fewer seconds than there are windows. *)
Theorem windows_tile_up_to_remainder (sym i : string) (from to : Z) :
  ValidInterval i = Ok tt ->
  valid_range from to ->
  exists d0 e ws final,
    YahooFunctionData_new sym from to i = Ok d0 /\
    expected_tuples_of from to (IntervalInEpoch i) = Ok e /\
    (forall fuel, (length ws < fuel)%nat ->
       PullAll fuel d0 = Some (ws, final)) /\
    (1 <= length ws)%nat /\
    ws = map (window_at sym i from (increment_epoch d0)) (seq 0 (length ws)) /\
    from_epoch final = from + Z.of_nat (length ws) * increment_epoch d0 /\
    to - from_epoch final = (to - from) mod increment_epoch d0 /\
    (e <= 60 -> from_epoch final = to) /\
    (60 < e -> to - from < 2 ^ 44 ->
     to - from_epoch final = (to - from) mod (e / 60 + 1) /\
     to - from_epoch final < Z.of_nat (length ws)).
Proof.
  intros Hv Hr.
  pose proof (increment_bounds i from to Hv Hr) as Hs.
  destruct (window_count_spec i from to Hv Hr) as (Hn & Hlo & Hhi).
  pose proof (window_count_pos i from to Hv Hr) as Hpos.
  destruct (range_facts from to Hr) as (HD & _).
  exists (cursor sym i None from to (increment from to i) 0).
  exists (expected_tuples from to i).
  exists (map (window_at sym i from (increment from to i))
            (seq 0 (window_count from to i))).
  exists (cursor sym i None from to (increment from to i)
            (window_count from to i)).
  rewrite length_map, length_seq.
  cbn [cursor from_epoch increment_epoch].
  split; [apply YahooFunctionData_new_cursor; assumption |].
  split; [apply expected_tuples_of_valid; assumption |].
  split; [intros fuel Hfuel; apply PullAll_valid; assumption |].
  split; [exact Hpos |].
  split; [reflexivity |].
  split; [reflexivity |].
  assert (Htail : to - (from + Z.of_nat (window_count from to i)
                                 * increment from to i)
                  = (to - from) mod increment from to i).
  { rewrite Hn. rewrite Z.mod_eq by lia. lia. }
  split; [exact Htail |].
  split.
  - intros He.
    assert (Hinc : increment from to i = to - from).
    { unfold increment, spec_stepSize.
      destruct (Z.ltb_spec 60 (expected_tuples from to i)); [lia | reflexivity]. }
    rewrite Hinc, Z.mod_same in Htail by lia. lia.
  - intros He Hnear.
    pose proof (window_count_near i from to Hv Hr Hnear) as Hcount.
    pose proof (expected_tuples_near i from to Hv Hr Hnear) as Hee.
    unfold planned_windows in Hcount. rewrite <- Hee in Hcount.
    destruct (Z.ltb_spec 60 (expected_tuples from to i)); [| lia].
    assert (Hinc : increment from to i =
                   (to - from) / (expected_tuples from to i / 60 + 1)).
    { unfold increment, spec_stepSize.
      destruct (Z.ltb_spec 60 (expected_tuples from to i)); [reflexivity | lia]. }
    assert (Hm : 0 < expected_tuples from to i / 60 + 1) by lia.
    pose proof (Z.mod_pos_bound (to - from) _ Hm) as Hmod.
    assert (Heq : to - (from + Z.of_nat (window_count from to i)
                                 * increment from to i)
                  = (to - from) mod (expected_tuples from to i / 60 + 1)).
    { rewrite Hcount, Hinc. rewrite Z.mod_eq by lia. lia. }
    split; [exact Heq |]. rewrite Heq, Hcount. lia.
Qed.

Lemma windows_tile_up_to_remainder_witness :
  exists d0 ws final,
    YahooFunctionData_new "AAPL" 1704067200 1738627200 "1d" = Ok d0 /\
    PullAll 8 d0 = Some (ws, final) /\
    length ws = 7%nat /\
    1738627200 - from_epoch final = 6.
Proof.
  assert (Hr : valid_range 1704067200 1738627200).
  { unfold valid_range, INT64_MIN, INT64_MAX. lia. }
  destruct (windows_tile_up_to_remainder "AAPL" "1d" 1704067200 1738627200
              eq_refl Hr)
    as (d0 & e & ws & final & Hnew & He & Hpull & _ & _ & Hfin & Htail & _
        & Hlong).
  exists d0, ws, final.
  assert (He' : e = 401) by (vm_compute in He; congruence).
  destruct (Hlong ltac:(lia) eq_refl) as (Hrem & _).
  assert (Hstep : increment_epoch d0 = 4937142).
  { injection Hnew as <-. reflexivity. }
  assert (Hl : length ws = 7%nat).
  { rewrite He' in Hrem. rewrite Hfin, Hstep in Hrem.
    change ((1738627200 - 1704067200) mod (401 / 60 + 1)) with 6 in Hrem.
    lia. }
  split; [exact Hnew |].
  split; [apply Hpull; rewrite Hl; repeat constructor |].
  split; [exact Hl |].
  rewrite Hrem, He'. reflexivity.
Defined.

(** ** Further properties: the pull loop and its collaborator *)

Section PullLoopPrefix.

Variables (DataChunk : Type).
Variable fetch : ReadCSVRelation -> result (option DataChunk).
Variable rows : nat -> DataChunk.
Variables (sym i : string) (from to step : Z).
Hypothesis Hstep : 0 < step.
Hypothesis Hfrom : INT64_MIN <= from.
Hypothesis Hto : to + step <= INT64_MAX.

(** The bind data with window [k] planned and the cursor on window [k + 1]. *)
Let planned (k : nat) : YahooFunctionData :=
  cursor sym i (Some (request (window_at sym i from step k))) from to step (S k).

Lemma Scan_planned_rows (k : nat) :
  fetch (request (window_at sym i from step k)) = Ok (Some (rows k)) ->
  from + (Z.of_nat (S k) + 1) * step <= to ->
  Scan DataChunk fetch (planned k) = Ok (planned (S k), Some (rows k)).
Proof.
  intros Hrows Hnext. unfold Scan, planned. cbn [plan cursor].
  rewrite Hrows. cbn [bind].
  change (GeneratePlan _) with
    (GeneratePlan (cursor sym i (Some (request (window_at sym i from step k)))
                     from to step (S k))).
  rewrite GeneratePlan_cursor_issue by assumption.
  reflexivity.
Qed.

Lemma Scan_planned_empty (k : nat) :
  fetch (request (window_at sym i from step k)) = Ok None ->
  Scan DataChunk fetch (planned k) = Ok (planned k, None).
Proof.
  intros Hempty. unfold Scan, planned. cbn [plan cursor].
  rewrite Hempty. reflexivity.
Qed.

(** While the collaborator has rows, the loop hands them over window by
    window and goes on from the next planned window. *)
Lemma ScanLoop_prefix (r : nat) :
  forall (k fuel : nat),
    (forall j, (k <= j < k + r)%nat ->
       fetch (request (window_at sym i from step j)) = Ok (Some (rows j))) ->
    from + (Z.of_nat (k + r) + 1) * step <= to ->
    ScanLoop DataChunk fetch (r + fuel) (planned k) =
    (rest <- ScanLoop DataChunk fetch fuel (planned (k + r)) ;;
     Ok (option_map
           (fun '(cs, final) => ((map rows (seq k r) ++ cs)%list, final))
           rest)).
Proof.
  induction r as [| r IH]; intros k fuel Hrows Hlast.
  - rewrite Nat.add_0_r. cbn [Nat.add seq map app].
    destruct (ScanLoop DataChunk fetch fuel (planned k)) as [[[cs final] |] | |];
      reflexivity.
  - cbn [Nat.add ScanLoop].
    rewrite Scan_planned_rows by (try apply Hrows; try lia; nia).
    cbn [bind].
    rewrite (IH (S k) fuel)
      by (try (intros j Hj; apply Hrows; lia);
          replace (S k + r)%nat with (k + S r)%nat by lia; exact Hlast).
    replace (S k + r)%nat with (k + S r)%nat by lia.
    destruct (ScanLoop DataChunk fetch fuel (planned (k + S r)))
      as [[[cs final] |] | |]; reflexivity.
Qed.

End PullLoopPrefix.

(** X8: on a valid request, when the collaborator has rows for the windows
    before window [j] and no chunk for window [j], the pull loop ends after
    [j] chunks: the call of [Scan] on window [j] returns without rows,
    keeps the plan of window [j] and does not move the cursor, and the same
    call repeated would do the same. *)
Theorem ScanLoop_ends_at_first_empty_window
  (DataChunk : Type) (fetch : ReadCSVRelation -> result (option DataChunk))
  (rows : nat -> DataChunk) (sym i : string) (from to : Z)
  (d0 : YahooFunctionData) (j fuel : nat) :
  ValidInterval i = Ok tt ->
  valid_range from to ->
  YahooFunctionData_new sym from to i = Ok d0 ->
  Z.of_nat j < (to - from) / increment_epoch d0 ->
  (forall k, (k < j)%nat ->
     fetch (request (window_at sym i from (increment_epoch d0) k)) =
     Ok (Some (rows k))) ->
  fetch (request (window_at sym i from (increment_epoch d0) j)) = Ok None ->
  (j < fuel)%nat ->
  exists final,
    ScanLoop DataChunk fetch fuel
      (set_plan (fst (GeneratePlan d0)) (snd (GeneratePlan d0))) =
    Ok (Some (map rows (seq 0 j), final)) /\
    plan final = Some (request (window_at sym i from (increment_epoch d0) j)) /\
    from_epoch final = from + (Z.of_nat j + 1) * increment_epoch d0 /\
    Scan DataChunk fetch final = Ok (final, None).
Proof.
  intros Hv Hr Hnew Hj Hrows Hempty Hfuel.
  rewrite (YahooFunctionData_new_cursor sym i from to Hv Hr) in Hnew.
  injection Hnew as <-. cbn [cursor increment_epoch] in *.
  pose proof (increment_bounds i from to Hv Hr) as Hs.
  destruct (window_count_spec i from to Hv Hr) as (Hn & Hlo & _).
  pose proof Hr as (Hmin & Hlt & Hmax).
  assert (Hwin : from + (Z.of_nat j + 1) * increment from to i <= to).
  { rewrite <- Hn in Hj. nia. }
  rewrite (GeneratePlan_cursor_issue sym i None from to (increment from to i)
             ltac:(lia) Hmin ltac:(lia) 0%nat) by nia.
  cbn [fst snd].
  change (set_plan _ (cursor sym i None from to (increment from to i) 1))
    with (cursor sym i
            (Some (request (window_at sym i from (increment from to i) 0)))
            from to (increment from to i) 1).
  destruct fuel as [| fuel]; [lia |].
  replace (S fuel) with (j + S (fuel - j))%nat by lia.
  rewrite (ScanLoop_prefix DataChunk fetch rows sym i from to
             (increment from to i) ltac:(lia) Hmin ltac:(lia) j 0%nat)
    by (try (intros k Hk; apply Hrows; lia); exact Hwin).
  cbn [Nat.add ScanLoop].
  rewrite (Scan_planned_empty DataChunk fetch sym i from to
             (increment from to i) j Hempty).
  cbn [bind option_map]. rewrite app_nil_r.
  eexists. split; [reflexivity |].
  split; [reflexivity |].
  split; [cbn [cursor from_epoch]; lia |].
  apply (Scan_planned_empty DataChunk fetch sym i from to
           (increment from to i) j Hempty).
Qed.

Lemma ScanLoop_ends_at_first_empty_window_witness :
  exists final,
    ScanLoop string
      (sample_fetch
         (csv_file (request (window_at "AAPL" "1d" 1704067200 4937142 2)))
         (Ok None))
      5
      (set_plan
         (fst (GeneratePlan
                 (cursor "AAPL" "1d" None 1704067200 1738627200 4937142 0)))
         (snd (GeneratePlan
                 (cursor "AAPL" "1d" None 1704067200 1738627200 4937142 0)))) =
    Ok (Some (map (fun k => csv_file
                              (request (window_at "AAPL" "1d" 1704067200 4937142 k)))
                [0%nat; 1%nat], final)).
Proof.
  assert (Hr : valid_range 1704067200 1738627200).
  { unfold valid_range, INT64_MIN, INT64_MAX. lia. }
  destruct (ScanLoop_ends_at_first_empty_window string
              (sample_fetch
                 (csv_file (request (window_at "AAPL" "1d" 1704067200 4937142 2)))
                 (Ok None))
              (fun k => csv_file
                          (request (window_at "AAPL" "1d" 1704067200 4937142 k)))
              "AAPL" "1d" 1704067200 1738627200
              (cursor "AAPL" "1d" None 1704067200 1738627200 4937142 0)
              2%nat 5%nat eq_refl Hr eq_refl eq_refl)
    as (final & Hloop & _).
  - intros k Hk. destruct k as [| [| k]]; [reflexivity | reflexivity | lia].
  - reflexivity.
  - repeat constructor.
  - exists final. exact Hloop.
Defined.



(** ** Further properties: the text of a request *)

Lemma to_string_parses (z : Z) :
  NilZero.int_of_string (to_string z) = Some (Z.to_int z).
Proof.
  unfold to_string. apply NilZero.isi; destruct z; simpl; intros [= H];
    exact (DecimalPos.Unsigned.to_uint_nonnil _ H).
Qed.

Lemma to_string_inj (a b : Z) : to_string a = to_string b -> a = b.
Proof.
  intros H. apply DecimalZ.to_int_inj.
  pose proof (to_string_parses a) as Ha. rewrite H, to_string_parses in Ha.
  congruence.
Qed.

Lemma string_of_uint_chars (d : Decimal.uint) (c : ascii) :
  In c (list_ascii_of_string (NilEmpty.string_of_uint d)) -> c <> "&"%char.
Proof.
  induction d; simpl; intros H; try contradiction;
    (destruct H as [<- | H]; [discriminate | exact (IHd H)]).
Qed.

Lemma to_string_chars (z : Z) (c : ascii) :
  In c (list_ascii_of_string (to_string z)) -> c <> "&"%char.
Proof.
  unfold to_string, NilZero.string_of_int, NilZero.string_of_uint.
  destruct (Z.to_int z) as [d | d]; destruct d; simpl;
    intros H; repeat (destruct H as [<- | H]; [discriminate |]);
    try contradiction; exact (string_of_uint_chars _ _ H).
Qed.

Lemma append_cancel_l (p a b : string) :
  (p ++ a = p ++ b)%string -> a = b.
Proof.
  induction p as [| c p IH]; simpl; intros H; [exact H |].
  injection H as H. exact (IH H).
Qed.

(** Two texts without an ampersand, each followed by an ampersand and a
    rest, are equal as wholes only if the texts and the rests are. *)
Lemma split_at_ampersand (s1 : string) :
  forall s2 r1 r2 : string,
    (forall c, In c (list_ascii_of_string s1) -> c <> "&"%char) ->
    (forall c, In c (list_ascii_of_string s2) -> c <> "&"%char) ->
    (s1 ++ String "&" r1 = s2 ++ String "&" r2)%string ->
    s1 = s2 /\ r1 = r2.
Proof.
  induction s1 as [| c s1 IH]; intros [| c2 s2] r1 r2 H1 H2 H; simpl in *.
  - injection H as H. split; [reflexivity | exact H].
  - injection H as Hc _. exfalso. apply (H2 c2); [left; reflexivity |].
    symmetry. exact Hc.
  - injection H as Hc _. exfalso. apply (H1 c); [left; reflexivity |].
    exact Hc.
  - injection H as Hc H. subst c2.
    destruct (IH s2 r1 r2) as (-> & ->); try assumption.
    + intros c' Hc'. apply H1. right. exact Hc'.
    + intros c' Hc'. apply H2. right. exact Hc'.
    + split; reflexivity.
Qed.

Lemma request_url_inj (sym i : string) (a b a' b' : Z) :
  request_url sym (to_string a) (to_string b) i =
  request_url sym (to_string a') (to_string b') i ->
  a = a' /\ b = b'.
Proof.
  unfold request_url. intros H.
  apply append_cancel_l in H. apply append_cancel_l in H.
  apply append_cancel_l in H.
  change ("&period2=" ++ ?x)%string with (String "&" ("period2=" ++ x)) in H.
  apply split_at_ampersand in H; try apply to_string_chars.
  destruct H as (Ha & H).
  apply append_cancel_l in H.
  change ("&interval=" ++ ?x)%string with (String "&" ("interval=" ++ x)) in H.
  apply split_at_ampersand in H; try apply to_string_chars.
  destruct H as (Hb & _).
  split; apply to_string_inj; assumption.
Qed.

(** X10: the decimal text of the bounds in the URL loses nothing: two
    cursors with the same symbol and interval for which [GeneratePlan]
    builds the same relation have the same [from_epoch] and the same
    [cur_to_epoch]; so, with a positive step, the windows of one request
    have pairwise different requests. *)
Theorem request_determines_window (d1 d2 : YahooFunctionData) :
  (forall rel d1' d2',
     symbol d1 = symbol d2 -> interval d1 = interval d2 ->
     GeneratePlan d1 = (Some rel, d1') ->
     GeneratePlan d2 = (Some rel, d2') ->
     from_epoch d1 = from_epoch d2 /\ cur_to_epoch d1 = cur_to_epoch d2) /\
  (forall (sym i : string) (from step : Z) (j k : nat),
     0 < step ->
     request (window_at sym i from step j) =
     request (window_at sym i from step k) ->
     j = k).
Proof.
  split.
  - intros rel d1' d2' Hsym Hint H1 H2.
    rewrite GeneratePlan_issue in H1, H2
      by (unfold GeneratePlan in *;
          match goal with
          | |- cur_to_epoch ?d <= to_epoch ?d =>
              destruct (Z.ltb_spec (to_epoch d) (cur_to_epoch d));
              [discriminate | lia]
          end).
    assert (Hrel : Some (csv_rel (request_url (symbol d1)
                                    (to_string (from_epoch d1))
                                    (to_string (cur_to_epoch d1)) (interval d1))) =
                   Some (csv_rel (request_url (symbol d2)
                                    (to_string (from_epoch d2))
                                    (to_string (cur_to_epoch d2)) (interval d2))))
      by congruence.
    assert (Hurl : request_url (symbol d1) (to_string (from_epoch d1))
                     (to_string (cur_to_epoch d1)) (interval d1) =
                   request_url (symbol d2) (to_string (from_epoch d2))
                     (to_string (cur_to_epoch d2)) (interval d2)).
    { exact (f_equal (fun o => match o with
                               | Some r => csv_file r
                               | None => EmptyString
                               end) Hrel). }
    rewrite Hsym, Hint in Hurl.
    exact (request_url_inj _ _ _ _ _ _ Hurl).
  - intros sym i from step j k Hstep H.
    pose proof (f_equal csv_file H) as Hurl.
    unfold window_at in Hurl. cbn [request csv_rel csv_file] in Hurl.
    apply request_url_inj in Hurl. destruct Hurl as (Hj & _).
    apply Nat2Z.inj. nia.
Qed.

Lemma request_determines_window_witness :
  from_epoch sample_cursor = 1704067200 /\
  cur_to_epoch sample_cursor = 1704844800 /\
  (2 = 2)%nat.
Proof.
  destruct (request_determines_window sample_cursor
              {| plan := None; symbol := "AAPL";
                 from_epoch := 1704067200; cur_to_epoch := 1704844800;
                 to_epoch := 1704844800 + 1; interval := "1d";
                 increment_epoch := 1 |}) as (Hcursor & Hwindow).
  destruct (Hcursor _ _ _ eq_refl eq_refl eq_refl eq_refl) as (Hf & Ht).
  split; [exact Hf |]. split; [exact Ht |].
  exact (Hwindow "AAPL" "1d" 1704067200 4937142 2%nat 2%nat eq_refl eq_refl).
Defined.

(** ** Further properties: what a call of [Scan] changes *)

(** X11: a call of [Scan] that returns never changes [symbol], [interval],
    [to_epoch] or [increment_epoch]; when it returns without rows it has
    changed nothing at all; when it returns a chunk, the chunk is the one
    fetched for the plan that was stored, and the plan now stored is what
    [GeneratePlan] made of the cursor: null, with the cursor left where it
    was, exactly when the cursor's to bound was above [to_epoch], and
    otherwise a plan, with both bounds one step further. *)
Theorem Scan_effects
  (DataChunk : Type) (fetch : ReadCSVRelation -> result (option DataChunk))
  (data data' : YahooFunctionData) (out : option DataChunk) :
  Scan DataChunk fetch data = Ok (data', out) ->
  (symbol data' = symbol data /\ interval data' = interval data /\
   to_epoch data' = to_epoch data /\
   increment_epoch data' = increment_epoch data) /\
  (out = None -> data' = data) /\
  (forall chunk, out = Some chunk ->
     (exists rel, plan data = Some rel /\ fetch rel = Ok (Some chunk)) /\
     plan data' = fst (GeneratePlan data) /\
     (plan data' = None <-> to_epoch data < cur_to_epoch data) /\
     (plan data' = None ->
      from_epoch data' = from_epoch data /\
      cur_to_epoch data' = cur_to_epoch data) /\
     (plan data' <> None ->
      from_epoch data' = add64 (from_epoch data) (increment_epoch data) /\
      cur_to_epoch data' = add64 (cur_to_epoch data) (increment_epoch data))).
Proof.
  unfold Scan. destruct (plan data) as [rel |] eqn:Hplan.
  - destruct (fetch rel) as [[chunk |] | |] eqn:Hfetch; cbn [bind];
      try discriminate.
    + unfold GeneratePlan.
      destruct (Z.ltb_spec (to_epoch data) (cur_to_epoch data)) as [Hend | Hgo];
        intros [= <- <-]; cbn [set_plan advance plan symbol interval to_epoch
                                 increment_epoch from_epoch cur_to_epoch fst].
      * split; [repeat split |]. split; [discriminate |].
        intros c [= <-]. split; [exists rel; split; [reflexivity | exact Hfetch] |].
        split; [reflexivity |]. split; [tauto |].
        split; [intros _; split; reflexivity | congruence].
      * split; [repeat split |]. split; [discriminate |].
        intros c [= <-]. split; [exists rel; split; [reflexivity | exact Hfetch] |].
        split; [reflexivity |].
        split; [split; [discriminate | lia] |].
        split; [discriminate | intros _; split; reflexivity].
    + intros [= <- <-]. split; [repeat split |].
      split; [reflexivity | discriminate].
  - intros [= <- <-]. split; [repeat split |].
    split; [reflexivity | discriminate].
Qed.

Lemma Scan_effects_witness :
  plan (set_plan None (advance sample_cursor)) = None /\
  from_epoch (set_plan None (advance sample_cursor)) =
    from_epoch (set_plan (Some (csv_rel "u")) (advance sample_cursor)).
Proof.
  destruct (Scan_effects string (fun rel => Ok (Some (csv_file rel)))
              (set_plan (Some (csv_rel "u")) (advance sample_cursor))
              (set_plan None (advance sample_cursor)) (Some "u") eq_refl)
    as (_ & _ & Hrows).
  destruct (Hrows "u" eq_refl) as (_ & _ & Hnull & Hstay & _).
  assert (Hp : plan (set_plan None (advance sample_cursor)) = None).
  { apply Hnull. reflexivity. }
  split; [exact Hp | exact (proj1 (Hstay Hp))].
Defined.

(** ** Further properties: the empty range *)

Lemma PullAll_fixed_point (d : YahooFunctionData) (rel : ReadCSVRelation) :
  GeneratePlan d = (Some rel, d) -> forall fuel, PullAll fuel d = None.
Proof.
  intros H fuel. induction fuel as [| fuel IH]; [reflexivity |].
  cbn [PullAll]. rewrite H, IH. reflexivity.
Qed.

(** X12: the constructor given an empty range ([to_epoch] equal to
    [from_epoch], which [Bind] refuses through its comparison of the dates)
    makes the step zero; [GeneratePlan] then issues the window from
    [from_epoch] to [from_epoch] and leaves the cursor where it was, so no
    number of calls reaches the null pointer. *)
Theorem empty_range_never_ends (sym i : string) (from : Z) :
  ValidInterval i = Ok tt ->
  in_int64 from ->
  exists d0 rel,
    YahooFunctionData_new sym from from i = Ok d0 /\
    increment_epoch d0 = 0 /\
    GeneratePlan d0 = (Some rel, d0) /\
    csv_file rel = request_url sym (to_string from) (to_string from) i /\
    (forall n, GeneratePlan_iter n d0 = d0) /\
    (forall fuel, PullAll fuel d0 = None).
Proof.
  intros Hv Hfrom.
  pose proof (IntervalInEpoch_bounds i Hv) as HI.
  assert (Hnew : YahooFunctionData_new sym from from i =
                 Ok {| plan := None; symbol := sym; from_epoch := from;
                       cur_to_epoch := from; to_epoch := from;
                       interval := i; increment_epoch := 0 |}).
  { unfold YahooFunctionData_new, expected_tuples_of, increment_of.
    rewrite sub64_small
      by (rewrite Z.sub_diag; unfold in_int64, INT64_MIN, INT64_MAX; lia).
    rewrite Z.sub_diag. rewrite div64_pos by (unfold INT64_MAX; lia).
    rewrite Z.div_0_l by lia. cbn [bind].
    change (wrap32 (add64 0 1)) with 1. cbn [Z.ltb Z.compare Pos.compare
                                               Pos.compare_cont bind].
    rewrite add64_small by (rewrite Z.add_0_r; exact Hfrom).
    rewrite Z.add_0_r, Z.ltb_irrefl. reflexivity. }
  assert (Hgen : GeneratePlan
                   {| plan := None; symbol := sym; from_epoch := from;
                      cur_to_epoch := from; to_epoch := from;
                      interval := i; increment_epoch := 0 |} =
                 (Some (csv_rel (request_url sym (to_string from)
                                   (to_string from) i)),
                  {| plan := None; symbol := sym; from_epoch := from;
                     cur_to_epoch := from; to_epoch := from;
                     interval := i; increment_epoch := 0 |})).
  { rewrite GeneratePlan_issue by (simpl; lia).
    unfold advance. cbn [plan symbol from_epoch cur_to_epoch to_epoch interval
                           increment_epoch].
    rewrite add64_small by (rewrite Z.add_0_r; exact Hfrom).
    rewrite Z.add_0_r. reflexivity. }
  eexists. eexists. split; [exact Hnew |].
  split; [reflexivity |]. split; [exact Hgen |]. split; [reflexivity |].
  split.
  - intros n. induction n as [| n IH]; [reflexivity |].
    cbn [GeneratePlan_iter]. rewrite Hgen. exact IH.
  - exact (PullAll_fixed_point _ _ Hgen).
Qed.

Lemma empty_range_never_ends_witness :
  exists d0,
    YahooFunctionData_new "AAPL" 1704067200 1704067200 "1d" = Ok d0 /\
    increment_epoch d0 = 0 /\
    PullAll 1000 d0 = None.
Proof.
  assert (Hr : in_int64 1704067200).
  { unfold in_int64, INT64_MIN, INT64_MAX. lia. }
  destruct (empty_range_never_ends "AAPL" "1d" 1704067200 eq_refl Hr)
    as (d0 & rel & Hnew & Hinc & _ & _ & _ & Hnever).
  exists d0. split; [exact Hnew |]. split; [exact Hinc | apply Hnever].
Defined.

(** ** The number of calls on a far range *)

Lemma PullAll_length (fuel : nat) :
  forall d ws final,
    PullAll fuel d = Some (ws, final) -> (length ws < fuel)%nat.
Proof.
  induction fuel as [| fuel IH]; intros d ws final H; [discriminate |].
  cbn [PullAll] in H.
  destruct (GeneratePlan d) as [[rel |] d'].
  - destruct (PullAll fuel d') as [[ws' final'] |] eqn:Hrest; [| discriminate].
    injection H as <- _. cbn [length]. apply IH in Hrest. lia.
  - injection H as <- _. cbn [length]. lia.
Qed.

Lemma PullAll_more_fuel (fuel : nat) :
  forall d r fuel',
    PullAll fuel d = Some r -> (fuel <= fuel')%nat -> PullAll fuel' d = Some r.
Proof.
  induction fuel as [| fuel IH]; intros d r fuel' H Hle; [discriminate |].
  destruct fuel' as [| fuel']; [lia |].
  cbn [PullAll] in *.
  destruct (GeneratePlan d) as [[rel |] d']; [| exact H].
  destruct (PullAll fuel d') as [[ws' final'] |] eqn:Hrest; [| discriminate].
  rewrite (IH d' (ws', final') fuel' Hrest ltac:(lia)). exact H.
Qed.

(** C5 as the spec states it fails on a far range: from day 0 to day
    314021819 at interval 1d the constructor stores 314021820 samples and
    divides the range into 314021820 / 60 + 1 = 5233698 windows, but the
    step 5183998 goes 5233699 times into the range: [GeneratePlan] issues
    5233699 windows, and as many calls as the computed window count, or one
    more, do not reach the null pointer. *)
Lemma window_count_exceeds_planned :
  exists d0 ws final,
    ValidInterval "1d" = Ok tt /\
    valid_range 0 (days_epoch 314021819) /\
    YahooFunctionData_new "AAPL" 0 (days_epoch 314021819) "1d" = Ok d0 /\
    expected_tuples_of 0 (days_epoch 314021819) (IntervalInEpoch "1d") =
      Ok 314021820 /\
    planned_windows 314021820 = 5233698 /\
    (forall fuel, (length ws < fuel)%nat ->
       PullAll fuel d0 = Some (ws, final)) /\
    Z.of_nat (length ws) = 5233699 /\
    (forall fuel, Z.of_nat fuel <= planned_windows 314021820 + 1 ->
       PullAll fuel d0 = None).
Proof.
  assert (Hr : valid_range 0 (days_epoch 314021819))
    by (vm_compute; repeat split; discriminate).
  assert (Hv : ValidInterval "1d" = Ok tt) by reflexivity.
  pose proof (proj1 (window_count_spec "1d" 0 (days_epoch 314021819) Hv Hr))
    as Hcount.
  assert (Hn : Z.of_nat (window_count 0 (days_epoch 314021819) "1d") = 5233699).
  { rewrite Hcount. vm_compute. reflexivity. }
  exists (cursor "AAPL" "1d" None 0 (days_epoch 314021819)
            (increment 0 (days_epoch 314021819) "1d") 0).
  exists (map (window_at "AAPL" "1d" 0 (increment 0 (days_epoch 314021819) "1d"))
            (seq 0 (window_count 0 (days_epoch 314021819) "1d"))).
  exists (cursor "AAPL" "1d" None 0 (days_epoch 314021819)
            (increment 0 (days_epoch 314021819) "1d")
            (window_count 0 (days_epoch 314021819) "1d")).
  rewrite length_map, length_seq.
  split; [exact Hv |]. split; [exact Hr |].
  split; [apply YahooFunctionData_new_cursor; assumption |].
  split; [vm_compute; reflexivity |].
  split; [vm_compute; reflexivity |].
  split; [intros fuel Hfuel; apply PullAll_valid; assumption |].
  split; [exact Hn |].
  intros fuel Hfuel.
  assert (Hp : planned_windows 314021820 = 5233698) by (vm_compute; reflexivity).
  rewrite Hp in Hfuel.
  destruct (PullAll fuel
              (cursor "AAPL" "1d" None 0 (days_epoch 314021819)
                 (increment 0 (days_epoch 314021819) "1d") 0))
    as [[ws' final'] |] eqn:Hshort; [exfalso | reflexivity].
  pose proof (PullAll_length _ _ _ _ Hshort) as Hlen.
  remember (window_count 0 (days_epoch 314021819) "1d") as n eqn:Hndef.
  assert (Hle : (fuel <= fuel + S n)%nat) by lia.
  pose proof (PullAll_more_fuel _ _ _ (fuel + S n)%nat Hshort Hle) as Hlong.
  pose proof (PullAll_valid "AAPL" "1d" 0 (days_epoch 314021819) Hv Hr
                (fuel + S n)%nat) as Hvalid.
  rewrite <- Hndef in Hvalid. clear Hndef.
  specialize (Hvalid ltac:(lia)).
  rewrite Hvalid in Hlong.
  assert (Hws : map (window_at "AAPL" "1d" 0
                       (increment 0 (days_epoch 314021819) "1d")) (seq 0 n) = ws')
    by congruence.
  apply (f_equal (@length Window)) in Hws.
  rewrite length_map, length_seq in Hws. lia.
Qed.
